(** * The Airbnb booking agent: conversation graph and mock tools

    A shallow embedding of [src/graph.py] (the LangGraph workflow: its nodes,
    its routing functions and its edge tables) and of [src/tools.py] (the three
    mock tools), followed by the properties of the natural-language
    specification that concern them.

    Conventions of the embedding.
    - Python [str] is [string] (a byte string; [lower] acts on ASCII letters,
      which is all that the keyword tests of the program can observe).
    - Python [int] is [Z].  A [float] is only ever formatted or passed through
      JSON by this program, so it is kept as the numeral that [str()] prints.
    - A [dict] is an insertion-ordered association list.
    - A raising computation is a value of [Py.result]; [try]/[except Exception]
      is a match on it.
    - The language model is an interface ([ChatModel]): nothing is assumed of
      what it answers. *)

From Stdlib Require Import ZArith List String Ascii Bool Lia DecimalString.
Import ListNotations.

Local Open Scope list_scope.
Local Open Scope string_scope.
Local Open Scope Z_scope.

(** ** Python primitives used by the program *)

Module Py.

Inductive exn : Set :=
| IndexError
| KeyError
| TypeError
| ValidationError
| OutputParserException.

Inductive result (A : Type) : Type :=
| Ok (a : A)
| Raise (e : exn).
Arguments Ok {A} a.
Arguments Raise {A} e.

Definition bind {A B : Type} (m : result A) (k : A -> result B) : result B :=
  match m with
  | Ok a => k a
  | Raise e => Raise e
  end.

(** The values a preference record or a keyword argument can hold. *)
Inductive value : Set :=
| None_
| Str (s : string)
| Int (n : Z).

Definition dict (V : Type) : Type := list (string * V).

Definition str_int (n : Z) : string := NilZero.string_of_int (Z.to_int n).

(** [str(v)], which is what an f-string placeholder inserts. *)
Definition str (v : value) : string :=
  match v with
  | None_ => "None"
  | Str s => s
  | Int n => str_int n
  end.

Definition is_empty (s : string) : bool :=
  match s with
  | EmptyString => true
  | String _ _ => false
  end.

(** [bool(v)]: [None], the empty string and [0] are false. *)
Definition truthy (v : value) : bool :=
  match v with
  | None_ => false
  | Str s => negb (is_empty s)
  | Int n => negb (n =? 0)
  end.

(** [all(vs)] *)
Definition all (vs : list value) : bool := forallb truthy vs.

Definition values {V : Type} (d : dict V) : list V := map snd d.

(** [bool(d)] for a dict *)
Definition nonempty {V : Type} (d : dict V) : bool :=
  match d with
  | [] => false
  | _ :: _ => true
  end.

(** [d[k]] *)
Fixpoint getitem {V : Type} (k : string) (d : dict V) : result V :=
  match d with
  | [] => Raise KeyError
  | (k', v) :: d' => if String.eqb k k' then Ok v else getitem k d'
  end.

(** [l[i]] on a list: a negative index counts from the end. *)
Definition index {A : Type} (l : list A) (i : Z) : result A :=
  let n := Z.of_nat (List.length l) in
  let j := if i <? 0 then i + n else i in
  if (j <? 0) || (n <=? j) then Raise IndexError
  else match nth_error l (Z.to_nat j) with
       | Some a => Ok a
       | None => Raise IndexError
       end.

(** [l[-1]] *)
Definition last_item {A : Type} (l : list A) : result A := index l (-1).

Definition lower_ascii (c : ascii) : ascii :=
  let n := nat_of_ascii c in
  if ((65 <=? n) && (n <=? 90))%nat then ascii_of_nat (n + 32) else c.

(** [s.lower()] *)
Fixpoint lower (s : string) : string :=
  match s with
  | EmptyString => EmptyString
  | String c s' => String (lower_ascii c) (lower s')
  end.

(** [needle in hay] on strings *)
Fixpoint contains (needle hay : string) : bool :=
  String.prefix needle hay ||
  match hay with
  | EmptyString => false
  | String _ hay' => contains needle hay'
  end.

Definition nl : string := String (ascii_of_nat 10) EmptyString.

End Py.

Notation "x <- m ;; k" := (Py.bind m (fun x => k))
  (at level 61, m at next level, right associativity).

(** ** Data model ([src/graph.py], the TypedDict declarations) *)

(** A float of the program, kept as the numeral [str()] prints for it. *)
Record float : Set := Float { float_str : string }.

(** [UserPreferences]: a dict; its declared keys are [city], [date_from],
    [date_to], [adults] and [children].  Nothing checks the declaration at run
    time, so a value may be [None] where a [str] or an [int] is declared. *)
Definition UserPreferences : Type := Py.dict Py.value.

Record AirbnbSearchResult : Set := {
  name : string;
  price : float;
  rating : float;
  url : string
}.

(** What a tool returns.  A [ToolMessage] carries [json.dumps] of it and the
    nodes read it back with [json.loads]; that round trip is the identity on
    these values, so a tool message keeps the observation itself. *)
Inductive observation : Set :=
| Listings (l : list AirbnbSearchResult)
| Text (s : string).

Inductive AnyMessage : Set :=
| SystemMessage (content : string)
| HumanMessage (content : string)
| AIMessage (content : string)
| ToolMessage (content : observation) (name : string) (tool_call_id : string).

Record AgentState : Type := {
  user_preferences : option UserPreferences;
  search_results : option (list AirbnbSearchResult);
  chosen_airbnb : option AirbnbSearchResult;
  booking_confirmation : option string;
  calendar_event_id : option string;
  messages : list AnyMessage
}.

(** The partial dict a node returns: [None] for a key the node leaves out. *)
Record StateUpdate : Type := {
  set_user_preferences : option (option UserPreferences);
  set_search_results : option (list AirbnbSearchResult);
  set_booking_confirmation : option string;
  set_calendar_event_id : option string;
  set_messages : option (list AnyMessage)
}.

Definition no_update : StateUpdate :=
  {| set_user_preferences := None; set_search_results := None;
     set_booking_confirmation := None; set_calendar_event_id := None;
     set_messages := None |}.

Definition or_keep {A : Type} (new : option A) (old : A) : A :=
  match new with
  | Some a => a
  | None => old
  end.

(** How the graph folds a node's return value into the state: [AgentState]
    declares no reducer, so every returned key replaces the stored one
    ([messages] included). *)
Definition apply_update (st : AgentState) (u : StateUpdate) : AgentState :=
  {| user_preferences := or_keep (set_user_preferences u) (user_preferences st);
     search_results :=
       or_keep (option_map Some (set_search_results u)) (search_results st);
     chosen_airbnb := chosen_airbnb st;
     booking_confirmation :=
       or_keep (option_map Some (set_booking_confirmation u))
               (booking_confirmation st);
     calendar_event_id :=
       or_keep (option_map Some (set_calendar_event_id u)) (calendar_event_id st);
     messages := or_keep (set_messages u) (messages st) |}.

(** Reading a state entry that the code goes on to subscript or unpack: an
    entry holding [None] makes that use raise [TypeError] (an entry never
    written raises [KeyError] at the lookup; the model keeps the one case). *)
Definition entry {A : Type} (o : option A) : Py.result A :=
  match o with
  | Some a => Py.Ok a
  | None => Py.Raise Py.TypeError
  end.

(** The structured-output chains built on the global [model]. *)
Record Choice : Set := { choice : Z }.

Class ChatModel : Type := {
  extract_UserPreferences : string -> Py.result (option UserPreferences);
  extract_Choice : string -> Py.result Choice
}.

(** [json.dumps(observation, indent=2)], the text of a tool message. *)
Class JsonCodec : Type := {
  json_dumps : observation -> string
}.

(** ** The mock tools ([src/tools.py]) *)

(** Each tool prints one line and returns a value: the pair of both. *)

Definition search_airbnb (city date_from date_to : string) (adults children : Z)
  : string * list AirbnbSearchResult :=
  ("Searching for Airbnb in " ++ city ++ " from " ++ date_from ++ " to "
     ++ date_to ++ " for " ++ Py.str_int adults ++ " adults and "
     ++ Py.str_int children ++ " children.",
   [ {| name := "Cozy Apartment in the City Center";
        price := Float "120.0"; rating := Float "4.8";
        url := "https://www.airbnb.com/rooms/1" |};
     {| name := "Spacious Loft with a View";
        price := Float "200.0"; rating := Float "4.9";
        url := "https://www.airbnb.com/rooms/2" |};
     {| name := "Charming Cottage near the Park";
        price := Float "95.0"; rating := Float "4.7";
        url := "https://www.airbnb.com/rooms/3" |} ]).

Definition book_airbnb (listing_url date_from date_to : string)
  (adults children : Z) : string * string :=
  ("Booking Airbnb at " ++ listing_url ++ " from " ++ date_from ++ " to "
     ++ date_to ++ " for " ++ Py.str_int adults ++ " adults and "
     ++ Py.str_int children ++ " children.",
   "Successfully booked the Airbnb listing.").

Definition create_google_calendar_event (summary start_time end_time : string)
  (description : option string) : string * string :=
  ("Creating Google Calendar event: " ++ summary ++ " from " ++ start_time
     ++ " to " ++ end_time,
   "mock_event_id").

(** [tool.invoke(kwargs)]: the keyword arguments are checked against the
    declared parameters.  A value of the declared type is taken as it is, a
    missing argument and [None] are refused (unless the parameter is
    optional).  What the validation library makes of a value of the other
    type (a numeral given as text, a number given for a text) is its own
    business: an interface, of which nothing is assumed. *)
Class ArgumentCoercion : Type := {
  str_as_int : string -> option Z;
  int_as_str : Z -> option string
}.

Definition validated {A : Type} (o : option A) : Py.result A :=
  match o with
  | Some a => Py.Ok a
  | None => Py.Raise Py.ValidationError
  end.

Definition arg_str {coercion : ArgumentCoercion}
  (k : string) (kwargs : Py.dict Py.value) : Py.result string :=
  match Py.getitem k kwargs with
  | Py.Ok (Py.Str s) => Py.Ok s
  | Py.Ok (Py.Int n) => validated (int_as_str n)
  | Py.Ok Py.None_ => Py.Raise Py.ValidationError
  | Py.Raise _ => Py.Raise Py.ValidationError
  end.

Definition arg_int {coercion : ArgumentCoercion}
  (k : string) (kwargs : Py.dict Py.value) : Py.result Z :=
  match Py.getitem k kwargs with
  | Py.Ok (Py.Int n) => Py.Ok n
  | Py.Ok (Py.Str s) => validated (str_as_int s)
  | Py.Ok Py.None_ => Py.Raise Py.ValidationError
  | Py.Raise _ => Py.Raise Py.ValidationError
  end.

Definition arg_optional_str {coercion : ArgumentCoercion}
  (k : string) (kwargs : Py.dict Py.value) : Py.result (option string) :=
  match Py.getitem k kwargs with
  | Py.Ok (Py.Str s) => Py.Ok (Some s)
  | Py.Ok Py.None_ => Py.Ok None
  | Py.Ok (Py.Int n) => s <- validated (int_as_str n) ;; Py.Ok (Some s)
  | Py.Raise _ => Py.Ok None
  end.

Definition tool : Type := Py.dict Py.value -> Py.result (string * observation).

Definition search_airbnb_tool {coercion : ArgumentCoercion} : tool := fun kwargs =>
  city <- arg_str "city" kwargs ;;
  date_from <- arg_str "date_from" kwargs ;;
  date_to <- arg_str "date_to" kwargs ;;
  adults <- arg_int "adults" kwargs ;;
  children <- arg_int "children" kwargs ;;
  let out := search_airbnb city date_from date_to adults children in
  Py.Ok (fst out, Listings (snd out)).

Definition book_airbnb_tool {coercion : ArgumentCoercion} : tool := fun kwargs =>
  listing_url <- arg_str "listing_url" kwargs ;;
  date_from <- arg_str "date_from" kwargs ;;
  date_to <- arg_str "date_to" kwargs ;;
  adults <- arg_int "adults" kwargs ;;
  children <- arg_int "children" kwargs ;;
  let out := book_airbnb listing_url date_from date_to adults children in
  Py.Ok (fst out, Text (snd out)).

Definition create_google_calendar_event_tool {coercion : ArgumentCoercion}
  : tool := fun kwargs =>
  summary <- arg_str "summary" kwargs ;;
  start_time <- arg_str "start_time" kwargs ;;
  end_time <- arg_str "end_time" kwargs ;;
  description <- arg_optional_str "description" kwargs ;;
  let out := create_google_calendar_event summary start_time end_time description in
  Py.Ok (fst out, Text (snd out)).

(** One call of a tool, as seen from outside: which tool, with which keyword
    arguments, and the line it printed. *)
Record invocation : Type := {
  called : string;
  called_with : Py.dict Py.value;
  printed : string
}.

(** The keyword arguments of a call [f(..., k=v, **d)]: the explicit keywords
    followed by the entries of the unpacked dict [d].  A key of [d] that names
    a parameter already bound, by position ([bound]) or by an explicit
    keyword, makes the call raise [TypeError] before [f] is entered. *)
Definition unpack (bound : list string) (explicit d : Py.dict Py.value)
  : Py.result (Py.dict Py.value) :=
  if existsb (fun k => existsb (String.eqb k) (bound ++ map fst explicit)%list)
       (map fst d)
  then Py.Raise Py.TypeError
  else Py.Ok (explicit ++ d)%list.

(** ** The nodes and routing functions ([src/graph.py]) *)

Section Workflow.

Context {model : ChatModel} {json : JsonCodec} {coercion : ArgumentCoercion}.

(** [message.content] *)
Definition content_of (m : AnyMessage) : string :=
  match m with
  | SystemMessage c => c
  | HumanMessage c => c
  | AIMessage c => c
  | ToolMessage o _ _ => json_dumps o
  end.

Definition tools_by_name : Py.dict tool :=
  [ ("search_airbnb", search_airbnb_tool);
    ("book_airbnb", book_airbnb_tool);
    ("create_google_calendar_event", create_google_calendar_event_tool) ].

Definition complete_tool_call (tool_name : string) (kwargs : Py.dict Py.value)
  : Py.result (AnyMessage * invocation) :=
  tool <- Py.getitem tool_name tools_by_name ;;
  out <- tool kwargs ;;
  Py.Ok (ToolMessage (snd out) tool_name "12345",
         {| called := tool_name; called_with := kwargs; printed := fst out |}).

(** [json.loads(tool_message.content)] *)
Definition loads_content (m : AnyMessage) : Py.result observation :=
  match m with
  | ToolMessage o _ _ => Py.Ok o
  | _ => Py.Raise Py.TypeError
  end.

Definition as_listings (o : observation) : Py.result (list AirbnbSearchResult) :=
  match o with
  | Listings l => Py.Ok l
  | Text _ => Py.Raise Py.TypeError
  end.

Definition as_text (o : observation) : Py.result string :=
  match o with
  | Text s => Py.Ok s
  | Listings _ => Py.Raise Py.TypeError
  end.

(** A node returns its partial update and the tool calls it made. *)
Definition node_result : Type := Py.result (StateUpdate * list invocation).

Definition get_user_preferences (state : AgentState) : node_result :=
  m <- Py.last_item (messages state) ;;
  user_preferences <- extract_UserPreferences (content_of m) ;;
  Py.Ok ({| set_user_preferences := Some user_preferences;
            set_search_results := None;
            set_booking_confirmation := None;
            set_calendar_event_id := None;
            set_messages := Some [] |}, []).

Definition search_for_airbnbs (state : AgentState) : node_result :=
  preferences <- entry (user_preferences state) ;;
  kwargs <- unpack ["tool_name"] [] preferences ;;
  call <- complete_tool_call "search_airbnb" kwargs ;;
  o <- loads_content (fst call) ;;
  results <- as_listings o ;;
  Py.Ok ({| set_user_preferences := None;
            set_search_results := Some results;
            set_booking_confirmation := None;
            set_calendar_event_id := None;
            set_messages :=
              Some [AIMessage "Searching for Airbnbs..."; fst call] |},
         [snd call]).

Definition presentation_header : string :=
  "Here are the top 3 Airbnb listings I found:" ++ Py.nl ++ Py.nl.

(** The body of the [for i, result in enumerate(...)] loop: the text added
    for the result at (zero-based) position [i]. *)
Definition presentation_line (i : nat) (result : AirbnbSearchResult) : string :=
  Py.str_int (Z.of_nat i + 1) ++ ". " ++ name result ++ " - $"
    ++ float_str (price result) ++ "/night, Rating: "
    ++ float_str (rating result) ++ Py.nl.

Fixpoint present_loop (i : nat) (results : list AirbnbSearchResult)
  (message_content : string) : string :=
  match results with
  | [] => message_content
  | result :: rest =>
      present_loop (S i) rest (message_content ++ presentation_line i result)
  end.

(** The lines the loop adds, one by one (used to state what it builds). *)
Fixpoint presented_lines (i : nat) (results : list AirbnbSearchResult)
  : list string :=
  match results with
  | [] => []
  | result :: rest => presentation_line i result :: presented_lines (S i) rest
  end.

Definition join (lines : list string) : string :=
  fold_right String.append EmptyString lines.

Definition present_choices (state : AgentState) : node_result :=
  search_results <- entry (search_results state) ;;
  let message_content :=
    present_loop 0 (firstn 3 search_results) presentation_header in
  Py.Ok ({| set_user_preferences := None;
            set_search_results := None;
            set_booking_confirmation := None;
            set_calendar_event_id := None;
            set_messages := Some [AIMessage message_content] |}, []).

Definition book_airbnb_node (state : AgentState) : node_result :=
  preferences <- entry (user_preferences state) ;;
  chosen_airbnb <- entry (chosen_airbnb state) ;;
  kwargs <- unpack ["tool_name"]
              [("listing_url", Py.Str (url chosen_airbnb))] preferences ;;
  call <- complete_tool_call "book_airbnb" kwargs ;;
  o <- loads_content (fst call) ;;
  confirmation <- as_text o ;;
  Py.Ok ({| set_user_preferences := None;
            set_search_results := None;
            set_booking_confirmation := Some confirmation;
            set_calendar_event_id := None;
            set_messages := Some [AIMessage "Booking the Airbnb..."; fst call] |},
         [snd call]).

Definition create_calendar_event_node (state : AgentState) : node_result :=
  preferences <- entry (user_preferences state) ;;
  chosen_airbnb <- entry (chosen_airbnb state) ;;
  date_from <- Py.getitem "date_from" preferences ;;
  date_to <- Py.getitem "date_to" preferences ;;
  call <- complete_tool_call "create_google_calendar_event"
            [ ("summary", Py.Str ("Airbnb Booking: " ++ name chosen_airbnb));
              ("start_time", Py.Str (Py.str date_from ++ "T09:00:00"));
              ("end_time", Py.Str (Py.str date_to ++ "T11:00:00"));
              ("description",
               Py.Str ("Booking confirmation for " ++ name chosen_airbnb ++ ".")) ] ;;
  o <- loads_content (fst call) ;;
  event_id <- as_text o ;;
  Py.Ok ({| set_user_preferences := None;
            set_search_results := None;
            set_booking_confirmation := None;
            set_calendar_event_id := Some event_id;
            set_messages :=
              Some [AIMessage "Creating Google Calendar event..."; fst call] |},
         [snd call]).

(** *** Conditional logic *)

Definition should_search (state : AgentState) : string :=
  match user_preferences state with
  | Some preferences =>
      if Py.nonempty preferences && Py.all (Py.values preferences)
      then "search"
      else "ask_for_info"
  | None => "ask_for_info"
  end.

(** [state["chosen_airbnb"] = listing] *)
Definition with_chosen_airbnb (state : AgentState) (listing : AirbnbSearchResult)
  : AgentState :=
  {| user_preferences := user_preferences state;
     search_results := search_results state;
     chosen_airbnb := Some listing;
     booking_confirmation := booking_confirmation state;
     calendar_event_id := calendar_event_id state;
     messages := messages state |}.

(** The body of the [try] block: the structured extraction, then the
    subscript into the search results. *)
Definition try_choice (state : AgentState) (last_message : string)
  : Py.result AirbnbSearchResult :=
  user_choice <- extract_Choice last_message ;;
  results <- entry (search_results state) ;;
  Py.index results (choice user_choice - 1).

(** Returns the label and the dict as the function leaves it (it assigns
    [chosen_airbnb] on the way to [book]).  The dict is the one the function
    was handed; see [run] for what the graph does with it. *)
Definition decide_next_step (state : AgentState) : Py.result (string * AgentState) :=
  m <- Py.last_item (messages state) ;;
  let last_message := content_of m in
  match try_choice state last_message with
  | Py.Ok listing => Py.Ok ("book", with_chosen_airbnb state listing)
  | Py.Raise _ =>
      if Py.contains "more" (Py.lower last_message)
         || Py.contains "different" (Py.lower last_message)
      then Py.Ok ("refine_search", state)
      else Py.Ok ("end", state)
  end.

Definition should_create_calendar_event (state : AgentState) : Py.result string :=
  m <- Py.last_item (messages state) ;;
  let last_message := Py.lower (content_of m) in
  if Py.contains "yes" last_message || Py.contains "sure" last_message
  then Py.Ok "create_event"
  else Py.Ok "end".

(** *** The graph *)

Inductive node : Set :=
| N_get_user_preferences
| N_search_for_airbnbs
| N_present_choices
| N_book_airbnb
| N_create_calendar_event.

Inductive target : Set :=
| To (n : node)
| END.

Definition entry_point : node := N_get_user_preferences.

Definition node_action (n : node) : AgentState -> node_result :=
  match n with
  | N_get_user_preferences => get_user_preferences
  | N_search_for_airbnbs => search_for_airbnbs
  | N_present_choices => present_choices
  | N_book_airbnb => book_airbnb_node
  | N_create_calendar_event => create_calendar_event_node
  end.

(** [add_conditional_edges(source, router, path_map)] *)
Definition conditional_edges
  (router : AgentState -> Py.result (string * AgentState))
  (path_map : Py.dict target) (state : AgentState)
  : Py.result (target * AgentState) :=
  routed <- router state ;;
  destination <- Py.getitem (fst routed) path_map ;;
  Py.Ok (destination, snd routed).

(** The edge leaving a node, followed on the state the node produced. *)
Definition outgoing (n : node) (state : AgentState)
  : Py.result (target * AgentState) :=
  match n with
  | N_get_user_preferences =>
      conditional_edges (fun s => Py.Ok (should_search s, s))
        [("search", To N_search_for_airbnbs); ("ask_for_info", END)] state
  | N_search_for_airbnbs => Py.Ok (To N_present_choices, state)
  | N_present_choices =>
      conditional_edges decide_next_step
        [("book", To N_book_airbnb);
         ("refine_search", To N_get_user_preferences);
         ("end", END)] state
  | N_book_airbnb =>
      conditional_edges (fun s => label <- should_create_calendar_event s ;;
                                  Py.Ok (label, s))
        [("create_event", To N_create_calendar_event); ("end", END)] state
  | N_create_calendar_event => Py.Ok (END, state)
  end.

(** How one invocation of the compiled graph ends. *)
Inductive outcome : Type :=
| Finished (state : AgentState) (visited : list node) (calls : list invocation)
| Crashed (e : Py.exn) (visited : list node) (calls : list invocation)
| RecursionLimit (visited : list node) (calls : list invocation).

(** Running the graph from node [n]: [fuel] bounds the number of nodes
    executed (the graph runtime has such a recursion limit).  A routing
    function is handed a copy of the state and only its label is used: what
    it assigns on that copy is not kept, and the next node runs on the state
    that the update of the node before it produced. *)
Fixpoint run (fuel : nat) (n : node) (state : AgentState)
  (visited : list node) (calls : list invocation) : outcome :=
  match fuel with
  | O => RecursionLimit visited calls
  | S fuel' =>
      match node_action n state with
      | Py.Raise e => Crashed e (visited ++ [n]) calls
      | Py.Ok (update, made) =>
          match outgoing n (apply_update state update) with
          | Py.Raise e => Crashed e (visited ++ [n]) (calls ++ made)
          | Py.Ok (END, _) =>
              Finished (apply_update state update) (visited ++ [n]) (calls ++ made)
          | Py.Ok (To n', _) =>
              run fuel' n' (apply_update state update) (visited ++ [n])
                (calls ++ made)
          end
      end
  end.

(** [app.invoke(state)] *)
Definition invoke_graph (fuel : nat) (state : AgentState) : outcome :=
  run fuel entry_point state [] [].

End Workflow.

(** What a run leaves behind, whichever way it ends. *)
Definition calls_of (o : outcome) : list invocation :=
  match o with
  | Finished _ _ calls => calls
  | Crashed _ _ calls => calls
  | RecursionLimit _ calls => calls
  end.

Definition visited_of (o : outcome) : list node :=
  match o with
  | Finished _ visited _ => visited
  | Crashed _ visited _ => visited
  | RecursionLimit visited _ => visited
  end.


(** The keys [UserPreferences] declares, which are the parameters of
    [search_airbnb]. *)
Definition declared_keys : list string :=
  ["city"; "date_from"; "date_to"; "adults"; "children"].

(** ** The session driver ([src/main.py]) *)

(** The dict [main] hands to the graph: it has the one key [messages]. *)
Definition initial_state_of (conversation : list AnyMessage) : AgentState :=
  {| user_preferences := None; search_results := None; chosen_airbnb := None;
     booking_confirmation := None; calendar_event_id := None;
     messages := conversation |}.

Section SessionDriver.

Context {model : ChatModel} {json : JsonCodec} {coercion : ArgumentCoercion}.

Definition greeting : AnyMessage :=
  SystemMessage "Hello! I'm here to help you book an Airbnb and create a Google Calendar event for your trip. What are your travel plans?".

(** The body of [for value in event.values()]: [value] is the update a node
    returned, [messages] the transcript of [main], [stdout] what was written
    so far. *)
Definition handle_event (value : StateUpdate) (messages : list AnyMessage)
  (stdout : list string) : Py.result (list AnyMessage * list string) :=
  produced <- match set_messages value with
              | Some l => Py.Ok l
              | None => Py.Raise Py.KeyError
              end ;;
  last <- Py.last_item produced ;;
  match last with
  | HumanMessage _ => Py.Ok (messages, stdout)
  | _ =>
      Py.Ok ((messages ++ [last])%list,
             if Py.is_empty (content_of last) then stdout
             else (stdout ++ [("Assistant: " ++ content_of last)%string])%list)
  end.

(** How the loop over [app.stream(...)] ends. *)
Inductive turn_end : Type :=
| TurnDone (messages : list AnyMessage) (stdout : list string)
| TurnRaised (e : Py.exn) (messages : list AnyMessage) (stdout : list string)
| TurnRecursionLimit (messages : list AnyMessage) (stdout : list string).

(** [for event in app.stream(...)]: the stream is lazy, so a node runs (with
    the routing function attached to it), its update is handed to the loop
    body, and only then does the next node run, on the state that update
    produced (as in [run]).  The lines the tools print go to the same
    output. *)
Fixpoint stream_turn (fuel : nat) (n : node) (state : AgentState)
  (messages : list AnyMessage) (stdout : list string) : turn_end :=
  match fuel with
  | O => TurnRecursionLimit messages stdout
  | S fuel' =>
      match node_action n state with
      | Py.Raise e => TurnRaised e messages stdout
      | Py.Ok (update, made) =>
          let stdout1 := (stdout ++ map printed made)%list in
          match outgoing n (apply_update state update) with
          | Py.Raise e => TurnRaised e messages stdout1
          | Py.Ok (destination, _) =>
              match handle_event update messages stdout1 with
              | Py.Raise e => TurnRaised e messages stdout1
              | Py.Ok (messages', stdout2) =>
                  match destination with
                  | END => TurnDone messages' stdout2
                  | To n' =>
                      stream_turn fuel' n' (apply_update state update)
                        messages' stdout2
                  end
              end
          end
      end
  end.

(** How [main] ends: by [break], by an exception nobody catches, or because
    [input] found no further line. *)
Inductive session_end : Type :=
| Left (messages : list AnyMessage) (stdout : list string)
| Uncaught (e : Py.exn) (messages : list AnyMessage) (stdout : list string)
| GraphRecursionError (messages : list AnyMessage) (stdout : list string)
| EOFError (messages : list AnyMessage) (stdout : list string).

(** The [while True] loop of [main], on the lines the user types. *)
Fixpoint main_loop (fuel : nat) (inputs : list string)
  (messages : list AnyMessage) (stdout : list string) : session_end :=
  match inputs with
  | [] => EOFError messages (stdout ++ ["You: "])
  | user_input :: rest =>
      let stdout1 := (stdout ++ ["You: "])%list in
      if existsb (String.eqb (Py.lower user_input)) ["exit"; "quit"]
      then Left messages stdout1
      else
        let messages1 := (messages ++ [HumanMessage user_input])%list in
        match stream_turn fuel entry_point (initial_state_of messages1)
                messages1 stdout1 with
        | TurnDone messages' stdout' => main_loop fuel rest messages' stdout'
        | TurnRaised e messages' stdout' => Uncaught e messages' stdout'
        | TurnRecursionLimit messages' stdout' =>
            GraphRecursionError messages' stdout'
        end
  end.

Definition main (fuel : nat) (inputs : list string) : session_end :=
  main_loop fuel inputs [greeting] [].

End SessionDriver.

(** ** The specification's data model, for comparison with the code *)

(** The PreferenceRecord of the specification: each field set or not yet set. *)
Record PreferenceRecord : Set := {
  city : option string;
  date_from : option string;
  date_to : option string;
  adults : option Z;
  children : option Z
}.

Definition str_or_none (o : option string) : Py.value :=
  match o with
  | Some s => Py.Str s
  | None => Py.None_
  end.

Definition int_or_none (o : option Z) : Py.value :=
  match o with
  | Some n => Py.Int n
  | None => Py.None_
  end.

(** The dict the program holds for a record: the five declared keys, a field
    that is not set holding [None]. *)
Definition as_UserPreferences (r : PreferenceRecord) : UserPreferences :=
  [ ("city", str_or_none (city r));
    ("date_from", str_or_none (date_from r));
    ("date_to", str_or_none (date_to r));
    ("adults", int_or_none (adults r));
    ("children", int_or_none (children r)) ].

(** A text field is filled when it is set to a non-empty string. *)
Definition filled (o : option string) : bool :=
  match o with
  | Some s => negb (Py.is_empty s)
  | None => false
  end.

Definition at_least_one (o : option Z) : bool :=
  match o with
  | Some n => 1 <=? n
  | None => false
  end.

Definition is_set {A : Type} (o : option A) : bool :=
  match o with
  | Some _ => true
  | None => false
  end.

(** Completeness as the specification words it: city, both dates and adults
    present, adults at least 1; children plays no part. *)
Definition spec_complete (r : PreferenceRecord) : bool :=
  filled (city r) && filled (date_from r) && filled (date_to r)
  && at_least_one (adults r).

(** A record lacks a required field when city, a date or adults is not set. *)
Definition missing_required (r : PreferenceRecord) : bool :=
  negb (is_set (city r) && is_set (date_from r) && is_set (date_to r)
        && is_set (adults r)).

(** Field-level merge as the specification words it: a field of the existing
    record is overwritten only by a non-empty newly extracted value. *)
Definition spec_merge_text (old new : option string) : option string :=
  if filled new then new else old.

Definition spec_merge_count (old new : option Z) : option Z :=
  match new with
  | Some n => Some n
  | None => old
  end.

Definition spec_merge (old new : PreferenceRecord) : PreferenceRecord :=
  {| city := spec_merge_text (city old) (city new);
     date_from := spec_merge_text (date_from old) (date_from new);
     date_to := spec_merge_text (date_to old) (date_to new);
     adults := spec_merge_count (adults old) (adults new);
     children := spec_merge_count (children old) (children new) |}.

(** [needle] occurs in [hay] as a substring. *)
Definition occurs (needle hay : string) : Prop :=
  exists before after, hay = before ++ needle ++ after.

(** The two outcomes of the choice interpreter that are not a selection. *)
Definition graceful (label : string) : bool :=
  String.eqb label "refine_search" || String.eqb label "end".

(** ** Sample conversations *)

(** The state [main] hands to the graph: only [messages] is given. *)
Definition initial_state (conversation : list AnyMessage) : AgentState :=
  {| user_preferences := None; search_results := None; chosen_airbnb := None;
     booking_confirmation := None; calendar_event_id := None;
     messages := conversation |}.

Definition with_preferences (p : UserPreferences) (st : AgentState) : AgentState :=
  {| user_preferences := Some p; search_results := search_results st;
     chosen_airbnb := chosen_airbnb st;
     booking_confirmation := booking_confirmation st;
     calendar_event_id := calendar_event_id st; messages := messages st |}.

Definition with_results (l : list AirbnbSearchResult) (st : AgentState) : AgentState :=
  {| user_preferences := user_preferences st; search_results := Some l;
     chosen_airbnb := chosen_airbnb st;
     booking_confirmation := booking_confirmation st;
     calendar_event_id := calendar_event_id st; messages := messages st |}.

(** A model that answers every preference prompt with [p] and every choice
    prompt with [c]. *)
Definition scripted (p : Py.result (option UserPreferences)) (c : Py.result Choice)
  : ChatModel :=
  {| extract_UserPreferences := fun _ => p; extract_Choice := fun _ => c |}.

(** A validation that coerces nothing, for the samples, whose arguments all
    have their declared types. *)
Definition no_coercion : ArgumentCoercion :=
  {| str_as_int := fun _ => None; int_as_str := fun _ => None |}.

(** A codec for the samples, none of which reads the text of a tool message. *)
Definition sample_json : JsonCodec := {| json_dumps := fun _ => "[...]" |}.

(** Two adults to Paris, nothing said about children. *)
Definition paris_no_children_given : PreferenceRecord :=
  {| city := Some "Paris"; date_from := Some "2024-07-01";
     date_to := Some "2024-07-05"; adults := Some 2; children := None |}.

Definition paris_family : PreferenceRecord :=
  {| city := Some "Paris"; date_from := Some "2024-07-01";
     date_to := Some "2024-07-05"; adults := Some 2; children := Some 1 |}.

(** A follow-up that only changes the dates. *)
Definition only_new_dates : PreferenceRecord :=
  {| city := None; date_from := Some "2024-08-01"; date_to := Some "2024-08-05";
     adults := None; children := None |}.


Definition the_three_listings : list AirbnbSearchResult :=
  snd (search_airbnb "Paris" "2024-07-01" "2024-07-05" 2 1).

Definition loft : AirbnbSearchResult :=
  {| name := "Spacious Loft with a View"; price := Float "200.0";
     rating := Float "4.9"; url := "https://www.airbnb.com/rooms/2" |}.

Definition cottage : AirbnbSearchResult :=
  {| name := "Charming Cottage near the Park"; price := Float "95.0";
     rating := Float "4.7"; url := "https://www.airbnb.com/rooms/3" |}.

(** The states and models of the sample conversations. *)

Definition family_state : AgentState :=
  with_preferences (as_UserPreferences paris_family) (initial_state []).

Definition no_children_given_state : AgentState :=
  with_preferences (as_UserPreferences paris_no_children_given) (initial_state []).


Definition no_results_state : AgentState :=
  with_results [] (initial_state [AIMessage "Searching for Airbnbs..."]).

Definition three_results_state : AgentState :=
  with_results the_three_listings (initial_state [AIMessage "Searching for Airbnbs..."]).

(** The user, holding a complete record, asks for other dates only. *)
Definition refine_state : AgentState :=
  with_preferences (as_UserPreferences paris_family)
    (initial_state [HumanMessage "make it the first week of August"]).

Definition silent_model : ChatModel :=
  scripted (Py.Raise Py.OutputParserException) (Py.Raise Py.OutputParserException).

Definition dates_only_model : ChatModel :=
  scripted (Py.Ok (Some (as_UserPreferences only_new_dates)))
           (Py.Raise Py.OutputParserException).


Definition first_turn_state : AgentState :=
  initial_state [SystemMessage "What are your travel plans?";
                 HumanMessage "Paris, two adults and a child"].

(** The model reads the number 0 out of the reply. *)
Definition choice_zero_model : ChatModel :=
  scripted (Py.Raise Py.OutputParserException) (Py.Ok {| choice := 0 |}).

Definition option_zero_state : AgentState :=
  with_results the_three_listings (initial_state [HumanMessage "option 0"]).


Definition booked_loft_state : AgentState :=
  {| user_preferences := Some (as_UserPreferences paris_family);
     search_results := Some the_three_listings;
     chosen_airbnb := Some loft;
     booking_confirmation := Some "Successfully booked the Airbnb listing.";
     calendar_event_id := None;
     messages := [HumanMessage "Sure thing"] |}.

(** Two adults and, said in so many words, no children. *)
Definition paris_couple : PreferenceRecord :=
  {| city := Some "Paris"; date_from := Some "2024-07-01";
     date_to := Some "2024-07-05"; adults := Some 2; children := Some 0 |}.

Definition couple_state : AgentState :=
  with_preferences (as_UserPreferences paris_couple) (initial_state []).

(** An extraction that returned the city and no other key. *)
Definition city_only : UserPreferences := [("city", Py.Str "Paris")].

Definition city_only_state : AgentState :=
  with_preferences city_only (initial_state []).

Definition family_model : ChatModel :=
  scripted (Py.Ok (Some (as_UserPreferences paris_family)))
           (Py.Raise Py.OutputParserException).

(** The model reads the number [n] out of every reply. *)
Definition choice_model (n : Z) : ChatModel :=
  scripted (Py.Raise Py.OutputParserException) (Py.Ok {| choice := n |}).

Definition chosen_loft_state : AgentState :=
  {| user_preferences := Some (as_UserPreferences paris_family);
     search_results := Some the_three_listings;
     chosen_airbnb := Some loft;
     booking_confirmation := None;
     calendar_event_id := None;
     messages := [AIMessage "Here are the top 3 Airbnb listings I found:"] |}.

(** A record whose check-in date holds [None]. *)
Definition no_check_in_state : AgentState :=
  {| user_preferences :=
       Some [("date_from", Py.None_); ("date_to", Py.Str "2024-07-05")];
     search_results := Some the_three_listings;
     chosen_airbnb := Some loft;
     booking_confirmation := None;
     calendar_event_id := None;
     messages := [] |}.

(** What the presentation returns on an empty result list. *)
Definition heading_only : StateUpdate :=
  {| set_user_preferences := None; set_search_results := None;
     set_booking_confirmation := None; set_calendar_event_id := None;
     set_messages := Some [AIMessage presentation_header] |}.

(** What the preference node returns when the family's record is extracted. *)
Definition family_extracted : StateUpdate :=
  {| set_user_preferences := Some (Some (as_UserPreferences paris_family));
     set_search_results := None; set_booking_confirmation := None;
     set_calendar_event_id := None; set_messages := Some [] |}.

(** The message that presents the three listings of the bundled search. *)
Definition mock_presentation : string :=
  present_loop 0 (firstn 3 the_three_listings) presentation_header.

(** What the presentation returns on the three listings. *)
Definition mock_presented : StateUpdate :=
  {| set_user_preferences := None; set_search_results := None;
     set_booking_confirmation := None; set_calendar_event_id := None;
     set_messages := Some [AIMessage mock_presentation] |}.

(** What the preference node returns when the dict [p] is extracted. *)
Definition extracted (p : UserPreferences) : StateUpdate :=
  {| set_user_preferences := Some (Some p); set_search_results := None;
     set_booking_confirmation := None; set_calendar_event_id := None;
     set_messages := Some [] |}.


(** ** Facts about the Python primitives *)

Section PythonFacts.

Lemma prefix_iff_append (p s : string) :
  String.prefix p s = true <-> exists rest, s = p ++ rest.
Proof.
  revert s; induction p as [|c p IH]; intros s; simpl.
  - split; [intros _; exists s; reflexivity | intros _; now destruct s].
  - destruct s as [|d s].
    + split; [discriminate | intros [rest H]; discriminate].
    + simpl. destruct (ascii_dec c d) as [->|Hneq].
      * rewrite IH. split; intros [rest H]; exists rest.
        -- now rewrite H.
        -- now inversion H.
      * split; [discriminate|].
        intros [rest H]; simpl in H; injection H as Hc _; congruence.
Qed.

(** [needle in hay] holds exactly when [needle] occurs in [hay]. *)
Lemma contains_iff_occurs (needle hay : string) :
  Py.contains needle hay = true <->
  exists before after, hay = before ++ needle ++ after.
Proof.
  induction hay as [|c hay IH]; cbn [Py.contains].
  - rewrite orb_false_r, prefix_iff_append. split.
    + intros [rest H]. exists EmptyString, rest. exact H.
    + intros [before [after H]]. destruct before; [|discriminate].
      exists after. exact H.
  - rewrite orb_true_iff, IH, prefix_iff_append. split.
    + intros [[rest H]|[before [after H]]].
      * exists EmptyString, rest. exact H.
      * exists (String c before), after. simpl. now rewrite H.
    + intros [before [after H]]. destruct before as [|d before].
      * left. exists after. exact H.
      * right. exists before, after. simpl in H. now injection H.
Qed.

Lemma contains_false_iff (needle hay : string) :
  Py.contains needle hay = false <->
  ~ exists before after, hay = before ++ needle ++ after.
Proof.
  rewrite <- contains_iff_occurs. destruct (Py.contains needle hay).
  - split; [discriminate | intros H; now elim H].
  - split; [intros _; discriminate | reflexivity].
Qed.

Lemma index_in_range {A : Type} (l : list A) (i : Z) :
  0 <= i < Z.of_nat (List.length l) ->
  exists a, Py.index l i = Py.Ok a /\ nth_error l (Z.to_nat i) = Some a.
Proof.
  intros Hi. unfold Py.index.
  destruct (Z.ltb_spec i 0) as [?|_]; [lia|].
  destruct (Z.ltb_spec i 0) as [?|_]; [lia|].
  destruct (Z.leb_spec (Z.of_nat (List.length l)) i) as [?|_]; [lia|].
  simpl. destruct (nth_error l (Z.to_nat i)) as [a|] eqn:E.
  - exists a. split; reflexivity.
  - apply nth_error_None in E. lia.
Qed.

(** An index at or beyond the length raises. *)
Lemma index_beyond {A : Type} (l : list A) (i : Z) :
  Z.of_nat (List.length l) <= i -> Py.index l i = Py.Raise Py.IndexError.
Proof.
  intros Hi. unfold Py.index.
  destruct (Z.ltb_spec i 0) as [?|_]; [lia|].
  destruct (Z.ltb_spec i 0) as [?|_]; [lia|].
  destruct (Z.leb_spec (Z.of_nat (List.length l)) i) as [_|?]; [|lia].
  reflexivity.
Qed.

(** A negative index counts from the end, as far back as the first item. *)
Lemma index_negative {A : Type} (l : list A) (i : Z) :
  - Z.of_nat (List.length l) <= i < 0 ->
  exists a, Py.index l i = Py.Ok a /\
            nth_error l (Z.to_nat (i + Z.of_nat (List.length l))) = Some a.
Proof.
  intros Hi. unfold Py.index.
  destruct (Z.ltb_spec i 0) as [_|?]; [|lia].
  destruct (Z.ltb_spec (i + Z.of_nat (List.length l)) 0) as [?|_]; [lia|].
  destruct (Z.leb_spec (Z.of_nat (List.length l)) (i + Z.of_nat (List.length l)))
    as [?|_]; [lia|].
  simpl.
  destruct (nth_error l (Z.to_nat (i + Z.of_nat (List.length l)))) as [a|] eqn:E.
  - exists a. split; reflexivity.
  - apply nth_error_None in E. lia.
Qed.

Lemma index_too_negative {A : Type} (l : list A) (i : Z) :
  i < - Z.of_nat (List.length l) -> Py.index l i = Py.Raise Py.IndexError.
Proof.
  intros Hi. unfold Py.index.
  destruct (Z.ltb_spec i 0) as [_|?]; [|lia].
  destruct (Z.ltb_spec (i + Z.of_nat (List.length l)) 0) as [_|?]; [|lia].
  reflexivity.
Qed.

Lemma last_item_app {A : Type} (l : list A) (a : A) :
  Py.last_item (l ++ [a]) = Py.Ok a.
Proof.
  unfold Py.last_item, Py.index.
  rewrite length_app, Nat2Z.inj_add. simpl List.length.
  destruct (Z.ltb_spec (-1) 0) as [_|?]; [|lia].
  destruct (Z.ltb_spec (-1 + (Z.of_nat (List.length l) + Z.of_nat 1)) 0)
    as [?|_]; [lia|].
  destruct (Z.leb_spec (Z.of_nat (List.length l) + Z.of_nat 1)
              (-1 + (Z.of_nat (List.length l) + Z.of_nat 1))) as [?|_]; [lia|].
  simpl orb. cbv iota.
  replace (Z.to_nat (-1 + (Z.of_nat (List.length l) + Z.of_nat 1)))
    with (List.length l + 0)%nat by lia.
  rewrite nth_error_app2 by lia.
  replace (List.length l + 0 - List.length l)%nat with 0%nat by lia.
  reflexivity.
Qed.

Lemma last_item_nil {A : Type} :
  Py.last_item (@nil A) = Py.Raise Py.IndexError.
Proof. reflexivity. Qed.

End PythonFacts.

(** ** The guard of the search transition *)

Section SearchGuard.

Context {model : ChatModel} {json : JsonCodec} {coercion : ArgumentCoercion}.

(** What [should_search] tests: a record that is there, is not the empty
    dict, and holds no false value. *)
Lemma should_search_iff_all_truthy (st : AgentState) :
  should_search st = "search" <->
  exists p, user_preferences st = Some p /\ p <> [] /\
            forall k v, In (k, v) p -> Py.truthy v = true.
Proof.
  unfold should_search. destruct (user_preferences st) as [p|].
  - destruct (Py.nonempty p && Py.all (Py.values p)) eqn:E.
    + split; [intros _|reflexivity]. apply andb_prop in E as [Hne Hall].
      exists p. split; [reflexivity|]. split.
      * destruct p; [discriminate|discriminate].
      * intros k v Hin. unfold Py.all, Py.values in Hall.
        rewrite forallb_forall in Hall. apply Hall.
        change v with (snd (k, v)). now apply in_map.
    + split; [discriminate|]. intros [q [Hq [Hne Hall]]].
      injection Hq as <-. exfalso.
      assert (Py.nonempty p = true) as Hn by (destruct p; [contradiction|reflexivity]).
      assert (Py.all (Py.values p) = true) as Ha.
      { unfold Py.all, Py.values. rewrite forallb_forall. intros v Hv.
        apply in_map_iff in Hv as [[k w] [<- Hin]]. now apply (Hall k). }
      rewrite Hn, Ha in E. discriminate.
  - split; [discriminate|]. intros [q [Hq _]]. discriminate.
Qed.

Lemma should_search_record (st : AgentState) (r : PreferenceRecord) :
  user_preferences st = Some (as_UserPreferences r) ->
  should_search st =
  if filled (city r) && filled (date_from r) && filled (date_to r)
     && match adults r with Some a => negb (a =? 0) | None => false end
     && match children r with Some c => negb (c =? 0) | None => false end
  then "search" else "ask_for_info".
Proof.
  intros H. unfold should_search. rewrite H.
  destruct r as [c f t a k]; cbn.
  destruct c as [c|], f as [f|], t as [t|], a as [a|], k as [k|]; cbn;
    rewrite ?andb_true_r, ?andb_false_r, ?andb_assoc; reflexivity.
Qed.

(** C1 (amended): the transition from CollectingPreferences to Searching is
    guarded by the truth values of what was extracted, not by the
    completeness predicate of the data model.  It fires only when the
    preferences dict is not empty, every value it holds other than the
    children count is true (a non-empty text, a number other than 0) and the
    children count, if the dict holds one, is not [None]; and it fires
    whenever the dict is not empty and all its values are true.  So on a
    record with the five declared keys it fires only when city, date_from and
    date_to are non-empty, adults is set to a number other than 0 and children
    is set as well (children is required, nothing defaults it), and it fires
    for every such record whose children count is not 0.  Which keys the dict
    holds the guard does not check. *)
Theorem search_guard_fires_on_truthy_values
  (st : AgentState) (p : UserPreferences) :
  user_preferences st = Some p ->
  (should_search st = "search" ->
   p <> []
   /\ (forall k v, In (k, v) p -> k <> "children" -> Py.truthy v = true)
   /\ (forall v, In ("children", v) p -> v <> Py.None_))
  /\ (p <> [] -> (forall k v, In (k, v) p -> Py.truthy v = true) ->
      should_search st = "search")
  /\ (forall r, p = as_UserPreferences r ->
        (should_search st = "search" ->
         filled (city r) = true /\ filled (date_from r) = true
         /\ filled (date_to r) = true
         /\ (exists a, adults r = Some a /\ a <> 0)
         /\ is_set (children r) = true)
        /\ (filled (city r) = true -> filled (date_from r) = true ->
            filled (date_to r) = true ->
            (exists a, adults r = Some a /\ a <> 0) ->
            (exists k, children r = Some k /\ k <> 0) ->
            should_search st = "search")).
Proof.
  intros Hst. split; [|split].
  - intros Hs. apply should_search_iff_all_truthy in Hs as [q [Hq [Hne Hall]]].
    rewrite Hst in Hq. injection Hq as <-. split; [exact Hne|]. split.
    + intros k v Hin _. now apply (Hall k).
    + intros v Hin ->. specialize (Hall _ _ Hin). discriminate.
  - intros Hne Hall. apply should_search_iff_all_truthy. exists p. auto.
  - intros r ->. rewrite (should_search_record st r Hst). split.
    + destruct (filled (city r)), (filled (date_from r)), (filled (date_to r));
        cbn [andb]; try discriminate.
      destruct (adults r) as [a|]; [|discriminate].
      destruct (children r) as [k|]; [|rewrite andb_false_r; discriminate].
      destruct (Z.eqb_spec a 0) as [->|Ha]; [discriminate|].
      intros _. repeat split. now exists a.
    + intros -> -> -> [a [-> Ha]] [k [-> Hk]]. cbn.
      destruct (Z.eqb_spec a 0); [contradiction|].
      destruct (Z.eqb_spec k 0); [contradiction|]. reflexivity.
Qed.

(** A record that lacks a required field is answered [ask_for_info]. *)
Lemma should_search_missing_required (st : AgentState) (r : PreferenceRecord) :
  user_preferences st = Some (as_UserPreferences r) ->
  missing_required r = true ->
  should_search st = "ask_for_info".
Proof.
  intros Hst Hm. rewrite (should_search_record st r Hst).
  unfold missing_required in Hm.
  destruct r as [c f t a k]; cbn in *.
  destruct c as [c|], f as [f|], t as [t|], a as [a|]; cbn in *;
    try discriminate; rewrite ?andb_false_r; reflexivity.
Qed.

(** Looking the tool up by its name, then calling it. *)
Lemma complete_search_call (kw : Py.dict Py.value) :
  complete_tool_call "search_airbnb" kw
  = (out <- search_airbnb_tool kw ;;
     Py.Ok (ToolMessage (snd out) "search_airbnb" "12345",
            {| called := "search_airbnb"; called_with := kw;
               printed := fst out |})).
Proof. reflexivity. Qed.

Lemma complete_book_call (kw : Py.dict Py.value) :
  complete_tool_call "book_airbnb" kw
  = (out <- book_airbnb_tool kw ;;
     Py.Ok (ToolMessage (snd out) "book_airbnb" "12345",
            {| called := "book_airbnb"; called_with := kw;
               printed := fst out |})).
Proof. reflexivity. Qed.

Lemma complete_calendar_call (kw : Py.dict Py.value) :
  complete_tool_call "create_google_calendar_event" kw
  = (out <- create_google_calendar_event_tool kw ;;
     Py.Ok (ToolMessage (snd out) "create_google_calendar_event" "12345",
            {| called := "create_google_calendar_event"; called_with := kw;
               printed := fst out |})).
Proof. reflexivity. Qed.







End SearchGuard.

(** ** Presenting the choices *)

Section Presentation.

Context {model : ChatModel} {json : JsonCodec} {coercion : ArgumentCoercion}.

Lemma append_assoc (a b c : string) : (a ++ b) ++ c = a ++ (b ++ c).
Proof. induction a as [|x a IH]; simpl; [reflexivity | now rewrite IH]. Qed.

Lemma append_empty_r (a : string) : a ++ EmptyString = a.
Proof. induction a as [|x a IH]; simpl; [reflexivity | now rewrite IH]. Qed.

(** The loop appends the lines to the message, in the order of the list. *)
Lemma present_loop_lines (results : list AirbnbSearchResult) :
  forall (i : nat) (message_content : string),
    present_loop i results message_content
    = message_content ++ join (presented_lines i results).
Proof.
  induction results as [|r rest IH]; intros i acc; cbn.
  - now rewrite append_empty_r.
  - rewrite IH. apply append_assoc.
Qed.

Lemma presented_lines_length (results : list AirbnbSearchResult) :
  forall i, List.length (presented_lines i results) = List.length results.
Proof.
  induction results as [|r rest IH]; intros i; cbn; [reflexivity|].
  now rewrite IH.
Qed.

Lemma presented_lines_nth (results : list AirbnbSearchResult) :
  forall (i j : nat) (r : AirbnbSearchResult),
    nth_error results j = Some r ->
    nth_error (presented_lines i results) j = Some (presentation_line (i + j) r).
Proof.
  induction results as [|r0 rest IH]; intros i j r H.
  - destruct j; discriminate.
  - destruct j as [|j]; cbn in *.
    + injection H as <-. now rewrite Nat.add_0_r.
    + rewrite (IH (S i) j r H). now rewrite Nat.add_succ_r.
Qed.

Lemma nth_error_firstn_some {A : Type} (n j : nat) (l : list A) (a : A) :
  nth_error (firstn n l) j = Some a -> nth_error l j = Some a.
Proof.
  revert j l; induction n as [|n IH]; intros j l H.
  - destruct j; discriminate.
  - destruct l as [|x l]; [destruct j; discriminate|].
    destruct j as [|j]; cbn in *; [exact H | now apply IH].
Qed.

(** C7: for every non-empty sequence of search results the presentation
    renders at least one and at most three listings, the first ones of the
    sequence in the provider's order, and the line of the listing at
    (1-based) position [i + 1] shows that position, then the name, the
    nightly price and the rating of that listing. *)
Theorem present_choices_top_three
  (st : AgentState) (results : list AirbnbSearchResult) :
  search_results st = Some results ->
  results <> [] ->
  exists lines,
    present_choices st
    = Py.Ok ({| set_user_preferences := None;
                set_search_results := None;
                set_booking_confirmation := None;
                set_calendar_event_id := None;
                set_messages :=
                  Some [AIMessage (presentation_header ++ join lines)] |}, [])
    /\ (1 <= List.length lines <= 3)%nat
    /\ List.length lines = Nat.min 3 (List.length results)
    /\ forall i, (i < List.length lines)%nat ->
         exists r, nth_error results i = Some r /\
           nth_error lines i
           = Some (Py.str_int (Z.of_nat i + 1) ++ ". " ++ name r ++ " - $"
                     ++ float_str (price r) ++ "/night, Rating: "
                     ++ float_str (rating r) ++ Py.nl).
Proof.
  intros Hst Hne. exists (presented_lines 0 (firstn 3 results)).
  assert (List.length (presented_lines 0 (firstn 3 results))
          = Nat.min 3 (List.length results)) as Hlen
    by (now rewrite presented_lines_length, length_firstn).
  repeat split.
  - unfold present_choices. rewrite Hst. cbn [entry Py.bind].
    now rewrite present_loop_lines.
  - rewrite Hlen. destruct results; [contradiction | cbn; lia].
  - rewrite Hlen. lia.
  - exact Hlen.
  - intros i Hi. rewrite presented_lines_length in Hi.
    destruct (nth_error (firstn 3 results) i) as [r|] eqn:E.
    + exists r. split; [now apply nth_error_firstn_some in E|].
      now rewrite (presented_lines_nth _ 0 i r E).
    + apply nth_error_None in E. lia.
Qed.

(** With no search results every extracted number is out of range. *)
Lemma try_choice_no_results (st : AgentState) (utterance : string) :
  search_results st = Some [] ->
  exists e, try_choice st utterance = Py.Raise e.
Proof.
  intros H. unfold try_choice.
  destruct (extract_Choice utterance) as [c|e]; cbn [Py.bind]; [|now exists e].
  rewrite H. cbn [entry Py.bind]. exists Py.IndexError.
  destruct (Z.lt_ge_cases (choice c - 1) 0) as [Hneg|Hpos].
  - apply index_too_negative. cbn. lia.
  - apply index_beyond. cbn. lia.
Qed.

(** C2 (amended): given zero search results the presentation does not raise;
    it emits the one fixed heading (the words top 3 Airbnb listings I found)
    followed by no listing entry, and says nothing of no listings being
    found.  The choice step that follows does not raise on the empty list
    either: whatever number is extracted, it takes the fallback and answers
    [refine_search] or [end] with no listing chosen. *)
Theorem present_choices_no_results (st : AgentState) :
  search_results st = Some [] ->
  present_choices st
  = Py.Ok ({| set_user_preferences := None;
              set_search_results := None;
              set_booking_confirmation := None;
              set_calendar_event_id := None;
              set_messages := Some [AIMessage presentation_header] |}, [])
  /\ presented_lines 0 (firstn 3 (@nil AirbnbSearchResult)) = []
  /\ Py.contains "no listings found" (Py.lower presentation_header) = false
  /\ forall m, Py.last_item (messages st) = Py.Ok m ->
       exists label, decide_next_step st = Py.Ok (label, st)
                     /\ graceful label = true.
Proof.
  intros H. repeat split.
  - unfold present_choices. now rewrite H.
  - intros m Hm. unfold decide_next_step. rewrite Hm. cbn [Py.bind].
    destruct (try_choice_no_results st (content_of m) H) as [e ->].
    destruct (Py.contains "more" (Py.lower (content_of m))
              || Py.contains "different" (Py.lower (content_of m))).
    + now exists "refine_search".
    + now exists "end".
Qed.

End Presentation.

(** ** Collecting the preferences *)

Section Preferences.

Context {model : ChatModel} {json : JsonCodec} {coercion : ArgumentCoercion}.

(** C3 (amended): when preference collection is entered again, the newly
    extracted record replaces the stored one as a whole: after the stage the
    state holds exactly what the extractor returned for the last message,
    whatever the stored record was (and the stage leaves the other entries
    of the state alone, except [messages], which it empties).  A field set
    before survives only if the new extraction yields it again. *)
Theorem extraction_replaces_the_record
  (st : AgentState) (m : AnyMessage) (extracted : option UserPreferences) :
  Py.last_item (messages st) = Py.Ok m ->
  extract_UserPreferences (content_of m) = Py.Ok extracted ->
  exists u,
    get_user_preferences st = Py.Ok (u, []) /\
    user_preferences (apply_update st u) = extracted /\
    search_results (apply_update st u) = search_results st /\
    chosen_airbnb (apply_update st u) = chosen_airbnb st /\
    messages (apply_update st u) = [].
Proof.
  intros Hm Hx. unfold get_user_preferences. rewrite Hm. cbn [Py.bind].
  rewrite Hx. cbn [Py.bind]. eexists. split; [reflexivity|].
  repeat split.
Qed.

(** The stage looks at the stored record not at all: two states that end in
    the same message get the same update. *)
Lemma get_user_preferences_ignores_record (st1 st2 : AgentState) :
  messages st1 = messages st2 ->
  get_user_preferences st1 = get_user_preferences st2.
Proof. intros H. unfold get_user_preferences. now rewrite H. Qed.

End Preferences.

(** ** Interpreting the choice *)

Section ChoiceInterpreter.

Context {model : ChatModel} {json : JsonCodec} {coercion : ArgumentCoercion}.

Lemma decide_next_step_fallback (st : AgentState) (m : AnyMessage) (e : Py.exn) :
  Py.last_item (messages st) = Py.Ok m ->
  try_choice st (content_of m) = Py.Raise e ->
  decide_next_step st
  = Py.Ok (if Py.contains "more" (Py.lower (content_of m))
              || Py.contains "different" (Py.lower (content_of m))
           then "refine_search" else "end", st).
Proof.
  intros Hm Ht. unfold decide_next_step. rewrite Hm. cbn [Py.bind].
  rewrite Ht. now destruct (_ || _).
Qed.


(** A number from 1 to the number of results selects that listing. *)
Lemma choice_in_range_books
  (st : AgentState) (m : AnyMessage) (results : list AirbnbSearchResult) (n : Z) :
  Py.last_item (messages st) = Py.Ok m ->
  extract_Choice (content_of m) = Py.Ok {| choice := n |} ->
  search_results st = Some results ->
  1 <= n <= Z.of_nat (List.length results) ->
  exists listing,
    nth_error results (Z.to_nat (n - 1)) = Some listing /\
    decide_next_step st = Py.Ok ("book", with_chosen_airbnb st listing).
Proof.
  intros Hm Hx Hr Hn.
  destruct (index_in_range results (n - 1)) as [listing [Hi Hnth]]; [lia|].
  exists listing. split; [exact Hnth|].
  unfold decide_next_step. rewrite Hm. cbn [Py.bind].
  unfold try_choice. rewrite Hx, Hr. cbn [Py.bind entry choice].
  now rewrite Hi.
Qed.

(** A number beyond the number of results is handled by the fallback. *)
Lemma choice_beyond_results_is_graceful
  (st : AgentState) (m : AnyMessage) (results : list AirbnbSearchResult) (n : Z) :
  Py.last_item (messages st) = Py.Ok m ->
  extract_Choice (content_of m) = Py.Ok {| choice := n |} ->
  search_results st = Some results ->
  Z.of_nat (List.length results) < n ->
  exists label, decide_next_step st = Py.Ok (label, st) /\ graceful label = true.
Proof.
  intros Hm Hx Hr Hn.
  assert (try_choice st (content_of m) = Py.Raise Py.IndexError) as Ht.
  { unfold try_choice. rewrite Hx, Hr. cbn [Py.bind entry choice].
    apply index_beyond. lia. }
  rewrite (decide_next_step_fallback st m _ Hm Ht).
  destruct (_ || _); eexists; split; reflexivity.
Qed.

(** The number 0 and the negative numbers down to [1 - length] are not
    refused: the subscript [n - 1] is negative and counts from the end, so
    a listing is booked. *)
Lemma choice_not_positive_books
  (st : AgentState) (m : AnyMessage) (results : list AirbnbSearchResult) (n : Z) :
  Py.last_item (messages st) = Py.Ok m ->
  extract_Choice (content_of m) = Py.Ok {| choice := n |} ->
  search_results st = Some results ->
  1 - Z.of_nat (List.length results) <= n <= 0 ->
  exists listing,
    nth_error results (Z.to_nat (n - 1 + Z.of_nat (List.length results)))
    = Some listing /\
    decide_next_step st = Py.Ok ("book", with_chosen_airbnb st listing).
Proof.
  intros Hm Hx Hr Hn.
  destruct (index_negative results (n - 1)) as [listing [Hi Hnth]]; [lia|].
  exists listing. split; [exact Hnth|].
  unfold decide_next_step. rewrite Hm. cbn [Py.bind].
  unfold try_choice. rewrite Hx, Hr. cbn [Py.bind entry choice].
  now rewrite Hi.
Qed.

End ChoiceInterpreter.

(** ** Scheduling the calendar event *)

Section Scheduling.

Context {model : ChatModel} {json : JsonCodec} {coercion : ArgumentCoercion}.

(** C8: the scheduling stage calls the calendar tool once, with a summary
    made from the chosen listing's name, a start time that is [date_from]
    followed by the fixed time of day [T09:00:00], an end time that is
    [date_to] followed by the different fixed time of day [T11:00:00], and a
    description in which the listing's name occurs; and the edge that leaves
    the stage leads to END from every state. *)
Theorem calendar_event_from_the_booking
  (st : AgentState) (preferences : UserPreferences)
  (listing : AirbnbSearchResult) (check_in check_out : string) :
  user_preferences st = Some preferences ->
  chosen_airbnb st = Some listing ->
  Py.getitem "date_from" preferences = Py.Ok (Py.Str check_in) ->
  Py.getitem "date_to" preferences = Py.Ok (Py.Str check_out) ->
  let summary := "Airbnb Booking: " ++ name listing in
  let start_time := check_in ++ "T09:00:00" in
  let end_time := check_out ++ "T11:00:00" in
  let description := "Booking confirmation for " ++ name listing ++ "." in
  (exists update line,
      create_calendar_event_node st
      = Py.Ok (update,
               [ {| called := "create_google_calendar_event";
                    called_with := [ ("summary", Py.Str summary);
                                     ("start_time", Py.Str start_time);
                                     ("end_time", Py.Str end_time);
                                     ("description", Py.Str description) ];
                    printed := line |} ])
      /\ set_calendar_event_id update = Some "mock_event_id")
  /\ occurs (name listing) summary
  /\ occurs (name listing) description
  /\ "T09:00:00" <> "T11:00:00"
  /\ forall st', outgoing N_create_calendar_event st' = Py.Ok (END, st').
Proof.
  intros Hp Hl Hfrom Hto summary start_time end_time description.
  repeat split.
  - unfold create_calendar_event_node.
    rewrite Hp, Hl. cbn [entry Py.bind]. rewrite Hfrom, Hto.
    cbn [Py.bind Py.str]. do 2 eexists. split; reflexivity.
  - exists "Airbnb Booking: ", EmptyString. unfold summary.
    now rewrite append_empty_r.
  - exists "Booking confirmation for ", ".". reflexivity.
  - discriminate.
Qed.

End Scheduling.

(** ** The bundled search operation *)

Section SearchProvider.

Context {coercion : ArgumentCoercion}.

(** C9: whatever city, dates and party it is given, the bundled search
    returns the same sequence of exactly three listings; its result is never
    empty and does not depend on its arguments, so that a search through the
    tool, when it is accepted, never yields an empty result. *)
Theorem search_airbnb_always_the_same_three
  (city date_from date_to : string) (adults children : Z) :
  snd (search_airbnb city date_from date_to adults children)
  = [ {| name := "Cozy Apartment in the City Center";
         price := Float "120.0"; rating := Float "4.8";
         url := "https://www.airbnb.com/rooms/1" |};
      {| name := "Spacious Loft with a View";
         price := Float "200.0"; rating := Float "4.9";
         url := "https://www.airbnb.com/rooms/2" |};
      {| name := "Charming Cottage near the Park";
         price := Float "95.0"; rating := Float "4.7";
         url := "https://www.airbnb.com/rooms/3" |} ]
  /\ List.length (snd (search_airbnb city date_from date_to adults children)) = 3%nat
  /\ snd (search_airbnb city date_from date_to adults children) <> []
  /\ (forall city' date_from' date_to' adults' children',
        snd (search_airbnb city' date_from' date_to' adults' children')
        = snd (search_airbnb city date_from date_to adults children))
  /\ (forall kwargs,
        match search_airbnb_tool kwargs with
        | Py.Ok (_, o) =>
            o = Listings (snd (search_airbnb city date_from date_to adults children))
        | Py.Raise _ => True
        end).
Proof.
  repeat split.
  - discriminate.
  - intros kw. unfold search_airbnb_tool.
    destruct (arg_str "city" kw); cbn [Py.bind]; [|exact I].
    destruct (arg_str "date_from" kw); cbn [Py.bind]; [|exact I].
    destruct (arg_str "date_to" kw); cbn [Py.bind]; [|exact I].
    destruct (arg_int "adults" kw); cbn [Py.bind]; [|exact I].
    destruct (arg_int "children" kw); cbn [Py.bind]; [|exact I].
    reflexivity.
Qed.

End SearchProvider.

(** ** Interpreting the confirmation *)

Section ConfirmationInterpreter.

Context {json : JsonCodec}.

(** C10: the confirmation interpreter answers [create_event] exactly when
    [yes] or [sure] occurs as a substring of the lower-cased utterance, and
    [end] for every other utterance; so [not sure] and [yesterday] are both
    taken as a confirmation. *)
Theorem confirmation_iff_yes_or_sure_occurs (st : AgentState) (m : AnyMessage) :
  Py.last_item (messages st) = Py.Ok m ->
  let utterance := Py.lower (content_of m) in
  (should_create_calendar_event st = Py.Ok "create_event"
   <-> occurs "yes" utterance \/ occurs "sure" utterance)
  /\ (should_create_calendar_event st = Py.Ok "end"
      <-> ~ (occurs "yes" utterance \/ occurs "sure" utterance))
  /\ should_create_calendar_event (initial_state [HumanMessage "not sure"])
     = Py.Ok "create_event"
  /\ should_create_calendar_event (initial_state [HumanMessage "yesterday"])
     = Py.Ok "create_event".
Proof.
  intros Hm utterance.
  assert (Py.contains "yes" utterance || Py.contains "sure" utterance = true
          <-> occurs "yes" utterance \/ occurs "sure" utterance) as Hb
    by (unfold occurs; now rewrite orb_true_iff, !contains_iff_occurs).
  unfold should_create_calendar_event. rewrite Hm. cbn [Py.bind].
  fold utterance.
  destruct (Py.contains "yes" utterance || Py.contains "sure" utterance).
  - repeat split.
    + intros _. now apply Hb.
    + discriminate.
    + intros Hno. elim Hno. now apply Hb.
  - repeat split.
    + discriminate.
    + intros Hyes. apply Hb in Hyes. discriminate.
    + intros _ Hyes. apply Hb in Hyes. discriminate.
Qed.

End ConfirmationInterpreter.

(** ** The properties on the sample conversations *)

Section Samples.

#[local] Existing Instance no_coercion.

(** Against C1 as stated: a record with city, both dates and two adults, and
    nothing set for children, is complete in the specification's sense, yet
    the guard answers [ask_for_info]. *)
Lemma no_children_given_is_spec_complete_but_not_searched :
  spec_complete paris_no_children_given = true
  /\ user_preferences no_children_given_state
     = Some (as_UserPreferences paris_no_children_given)
  /\ should_search no_children_given_state = "ask_for_info"
  /\ should_search no_children_given_state <> "search".
Proof. repeat split. discriminate. Qed.

(** The guard on a record with all five fields set. *)
Lemma family_record_passes_the_guard :
  user_preferences family_state = Some (as_UserPreferences paris_family)
  /\ ((should_search family_state = "search" ->
       as_UserPreferences paris_family <> []
       /\ (forall k v, In (k, v) (as_UserPreferences paris_family) ->
                       k <> "children" -> Py.truthy v = true)
       /\ (forall v, In ("children", v) (as_UserPreferences paris_family) ->
                     v <> Py.None_))
      /\ (as_UserPreferences paris_family <> [] ->
          (forall k v, In (k, v) (as_UserPreferences paris_family) ->
                       Py.truthy v = true) ->
          should_search family_state = "search")
      /\ (forall r, as_UserPreferences paris_family = as_UserPreferences r ->
            (should_search family_state = "search" ->
             filled (city r) = true /\ filled (date_from r) = true
             /\ filled (date_to r) = true
             /\ (exists a, adults r = Some a /\ a <> 0)
             /\ is_set (children r) = true)
            /\ (filled (city r) = true -> filled (date_from r) = true ->
                filled (date_to r) = true ->
                (exists a, adults r = Some a /\ a <> 0) ->
                (exists k, children r = Some k /\ k <> 0) ->
                should_search family_state = "search"))).
Proof.
  split; [reflexivity|].
  apply (search_guard_fires_on_truthy_values family_state
           (as_UserPreferences paris_family)).
  reflexivity.
Defined.

(** Against C2 as stated: on an empty result list the only message is the
    heading, in which the words [no listings found] do not occur. *)
Lemma no_results_heading_is_not_a_no_listings_message :
  exists text,
    present_choices no_results_state
    = Py.Ok ({| set_user_preferences := None;
                set_search_results := None;
                set_booking_confirmation := None;
                set_calendar_event_id := None;
                set_messages := Some [AIMessage text] |}, [])
    /\ text = "Here are the top 3 Airbnb listings I found:" ++ Py.nl ++ Py.nl
    /\ ~ occurs "no listings found" (Py.lower text).
Proof.
  eexists. split; [reflexivity|]. split; [reflexivity|].
  apply contains_false_iff. vm_compute. reflexivity.
Qed.

(** The empty result list, presented and then answered. *)
Lemma no_results_sample_presented :
  search_results no_results_state = Some []
  /\ (present_choices no_results_state
      = Py.Ok ({| set_user_preferences := None;
                  set_search_results := None;
                  set_booking_confirmation := None;
                  set_calendar_event_id := None;
                  set_messages := Some [AIMessage presentation_header] |}, [])
      /\ presented_lines 0 (firstn 3 (@nil AirbnbSearchResult)) = []
      /\ Py.contains "no listings found" (Py.lower presentation_header) = false
      /\ forall m, Py.last_item (messages no_results_state) = Py.Ok m ->
           exists label,
             decide_next_step (model := silent_model) (json := sample_json)
               no_results_state = Py.Ok (label, no_results_state)
             /\ graceful label = true).
Proof.
  split; [reflexivity|].
  apply (present_choices_no_results (model := silent_model) (json := sample_json)
           no_results_state).
  reflexivity.
Defined.

(** Against C3 as stated: the stored record names Paris, the new extraction
    yields the dates only; a field-level merge would keep the city, the stage
    stores the new record, whose city is [None]. *)
Lemma refine_loses_the_city :
  exists u,
    get_user_preferences (model := dates_only_model) (json := sample_json)
      refine_state = Py.Ok (u, [])
    /\ user_preferences refine_state = Some (as_UserPreferences paris_family)
    /\ user_preferences (apply_update refine_state u)
       = Some (as_UserPreferences only_new_dates)
    /\ user_preferences (apply_update refine_state u)
       <> Some (as_UserPreferences (spec_merge paris_family only_new_dates))
    /\ city (spec_merge paris_family only_new_dates) = Some "Paris"
    /\ (Py.getitem "city" (as_UserPreferences only_new_dates)) = Py.Ok Py.None_.
Proof.
  eexists. split; [reflexivity|]. repeat split. discriminate.
Qed.

(** The replacement on that same conversation. *)
Lemma refine_takes_the_new_record :
  (Py.last_item (messages refine_state)
   = Py.Ok (HumanMessage "make it the first week of August")
   /\ extract_UserPreferences (ChatModel := dates_only_model)
        (content_of (json := sample_json)
           (HumanMessage "make it the first week of August"))
      = Py.Ok (Some (as_UserPreferences only_new_dates)))
  /\ exists u,
       get_user_preferences (model := dates_only_model) (json := sample_json)
         refine_state = Py.Ok (u, [])
       /\ user_preferences (apply_update refine_state u)
          = Some (as_UserPreferences only_new_dates)
       /\ search_results (apply_update refine_state u) = search_results refine_state
       /\ chosen_airbnb (apply_update refine_state u) = chosen_airbnb refine_state
       /\ messages (apply_update refine_state u) = [].
Proof.
  split; [split; reflexivity|].
  apply (extraction_replaces_the_record (model := dates_only_model)
           (json := sample_json) refine_state
           (HumanMessage "make it the first week of August")
           (Some (as_UserPreferences only_new_dates))); reflexivity.
Defined.

(** C4 (the code at the failing input): with the three listings presented
    and the number 0 extracted from the reply, the subscript is [-1]: the
    interpreter answers [book] and sets the chosen listing to the last one,
    where the claim asks for a refine or an end. *)
Theorem choice_zero_books_the_last_listing :
  decide_next_step (model := choice_zero_model) (json := sample_json)
    option_zero_state
  = Py.Ok ("book", with_chosen_airbnb option_zero_state cottage)
  /\ graceful "book" = false
  /\ Py.index the_three_listings (0 - 1) = Py.Ok cottage.
Proof. repeat split. Qed.




(** The three listings of the bundled search, presented. *)
Lemma mock_listings_presented_in_order :
  (search_results three_results_state = Some the_three_listings
   /\ the_three_listings <> [])
  /\ exists lines,
       present_choices three_results_state
       = Py.Ok ({| set_user_preferences := None;
                   set_search_results := None;
                   set_booking_confirmation := None;
                   set_calendar_event_id := None;
                   set_messages :=
                     Some [AIMessage (presentation_header ++ join lines)] |}, [])
       /\ (1 <= List.length lines <= 3)%nat
       /\ List.length lines = Nat.min 3 (List.length the_three_listings)
       /\ forall i, (i < List.length lines)%nat ->
            exists r, nth_error the_three_listings i = Some r /\
              nth_error lines i
              = Some (Py.str_int (Z.of_nat i + 1) ++ ". " ++ name r ++ " - $"
                        ++ float_str (price r) ++ "/night, Rating: "
                        ++ float_str (rating r) ++ Py.nl).
Proof.
  assert (the_three_listings <> []) as Hne by discriminate.
  split; [split; [reflexivity | exact Hne]|].
  apply (present_choices_top_three three_results_state the_three_listings);
    [reflexivity | exact Hne].
Defined.

(** The calendar event for a booked stay at the loft. *)
Lemma calendar_event_for_the_loft :
  (user_preferences booked_loft_state = Some (as_UserPreferences paris_family)
   /\ chosen_airbnb booked_loft_state = Some loft
   /\ Py.getitem "date_from" (as_UserPreferences paris_family)
      = Py.Ok (Py.Str "2024-07-01")
   /\ Py.getitem "date_to" (as_UserPreferences paris_family)
      = Py.Ok (Py.Str "2024-07-05"))
  /\ (exists update line,
        create_calendar_event_node booked_loft_state
        = Py.Ok (update,
                 [ {| called := "create_google_calendar_event";
                      called_with :=
                        [ ("summary", Py.Str "Airbnb Booking: Spacious Loft with a View");
                          ("start_time", Py.Str "2024-07-01T09:00:00");
                          ("end_time", Py.Str "2024-07-05T11:00:00");
                          ("description",
                           Py.Str "Booking confirmation for Spacious Loft with a View.") ];
                      printed := line |} ])
        /\ set_calendar_event_id update = Some "mock_event_id")
  /\ occurs "Spacious Loft with a View" "Airbnb Booking: Spacious Loft with a View"
  /\ occurs "Spacious Loft with a View"
       "Booking confirmation for Spacious Loft with a View."
  /\ "T09:00:00" <> "T11:00:00"
  /\ forall st',
       outgoing (model := silent_model) (json := sample_json)
         N_create_calendar_event st' = Py.Ok (END, st').
Proof.
  split; [repeat split|].
  apply (calendar_event_from_the_booking (model := silent_model)
           (json := sample_json) booked_loft_state
           (as_UserPreferences paris_family) loft "2024-07-01" "2024-07-05");
    reflexivity.
Defined.

(** A reply in mixed case is a confirmation. *)
Lemma sure_thing_is_a_confirmation :
  Py.last_item (messages booked_loft_state) = Py.Ok (HumanMessage "Sure thing")
  /\ ((should_create_calendar_event (json := sample_json) booked_loft_state
       = Py.Ok "create_event"
       <-> occurs "yes" (Py.lower "Sure thing")
           \/ occurs "sure" (Py.lower "Sure thing"))
      /\ (should_create_calendar_event (json := sample_json) booked_loft_state
          = Py.Ok "end"
          <-> ~ (occurs "yes" (Py.lower "Sure thing")
                 \/ occurs "sure" (Py.lower "Sure thing")))
      /\ should_create_calendar_event (json := sample_json)
           (initial_state [HumanMessage "not sure"]) = Py.Ok "create_event"
      /\ should_create_calendar_event (json := sample_json)
           (initial_state [HumanMessage "yesterday"]) = Py.Ok "create_event").
Proof.
  split; [reflexivity|].
  apply (confirmation_iff_yes_or_sure_occurs (json := sample_json)
           booked_loft_state (HumanMessage "Sure thing")).
  reflexivity.
Defined.

End Samples.

(** ** Beyond the guard: what the search node is handed *)

Section GuardAndSearch.

Context {coercion : ArgumentCoercion}.

Lemma validated_raises {A : Type} (o : option A) (e : Py.exn) :
  validated o = Py.Raise e -> e = Py.ValidationError.
Proof. destruct o; intros H; now inversion H. Qed.

Lemma arg_str_raises (k : string) (kw : Py.dict Py.value) (e : Py.exn) :
  arg_str k kw = Py.Raise e -> e = Py.ValidationError.
Proof.
  unfold arg_str. destruct (Py.getitem k kw) as [[|s|n]|e']; intros H;
    try (now inversion H). now apply validated_raises in H.
Qed.

Lemma arg_int_raises (k : string) (kw : Py.dict Py.value) (e : Py.exn) :
  arg_int k kw = Py.Raise e -> e = Py.ValidationError.
Proof.
  unfold arg_int. destruct (Py.getitem k kw) as [[|s|n]|e']; intros H;
    try (now inversion H). now apply validated_raises in H.
Qed.

(** An argument that is accepted was there. *)
Lemma arg_str_found (k : string) (kw : Py.dict Py.value) (s : string) :
  arg_str k kw = Py.Ok s -> exists v, Py.getitem k kw = Py.Ok v.
Proof.
  unfold arg_str. destruct (Py.getitem k kw) as [v|e']; intros H;
    [now exists v | discriminate].
Qed.

Lemma arg_int_found (k : string) (kw : Py.dict Py.value) (n : Z) :
  arg_int k kw = Py.Ok n -> exists v, Py.getitem k kw = Py.Ok v.
Proof.
  unfold arg_int. destruct (Py.getitem k kw) as [v|e']; intros H;
    [now exists v | discriminate].
Qed.

(** The search tool refuses a call exactly by a validation error, and it
    accepts one only if all five declared keys are there. *)
Lemma search_airbnb_tool_cases (kw : Py.dict Py.value) :
  search_airbnb_tool kw = Py.Raise Py.ValidationError
  \/ (exists out, search_airbnb_tool kw = Py.Ok out)
     /\ forall k, In k declared_keys -> exists v, Py.getitem k kw = Py.Ok v.
Proof.
  unfold search_airbnb_tool.
  destruct (arg_str "city" kw) as [c|e] eqn:Ec; cbn [Py.bind];
    [|left; now rewrite (arg_str_raises _ _ _ Ec)].
  destruct (arg_str "date_from" kw) as [f|e] eqn:Ef; cbn [Py.bind];
    [|left; now rewrite (arg_str_raises _ _ _ Ef)].
  destruct (arg_str "date_to" kw) as [t|e] eqn:Et; cbn [Py.bind];
    [|left; now rewrite (arg_str_raises _ _ _ Et)].
  destruct (arg_int "adults" kw) as [a|e] eqn:Ea; cbn [Py.bind];
    [|left; now rewrite (arg_int_raises _ _ _ Ea)].
  destruct (arg_int "children" kw) as [n|e] eqn:En; cbn [Py.bind];
    [|left; now rewrite (arg_int_raises _ _ _ En)].
  right. split; [eexists; reflexivity|].
  intros k [<-|[<-|[<-|[<-|[<-|[]]]]]];
    eauto using arg_str_found, arg_int_found.
Qed.

(** X1: on a record that holds the five declared keys, [should_search]
    answers [search] exactly when city and both dates are non-empty strings
    and adults and children are both set to a number other than 0.  So a
    children count of 0 is answered [ask_for_info], like a count that is not
    set, and a negative count passes. *)
Theorem search_guard_on_a_full_record (st : AgentState) (r : PreferenceRecord) :
  user_preferences st = Some (as_UserPreferences r) ->
  (should_search st = "search" <->
   filled (city r) = true /\ filled (date_from r) = true
   /\ filled (date_to r) = true
   /\ (exists a, adults r = Some a /\ a <> 0)
   /\ (exists k, children r = Some k /\ k <> 0))
  /\ (should_search st = "ask_for_info" \/ should_search st = "search").
Proof.
  intros Hst. rewrite (should_search_record st r Hst).
  assert ((filled (city r) && filled (date_from r) && filled (date_to r)
           && match adults r with Some a => negb (a =? 0) | None => false end
           && match children r with Some c => negb (c =? 0) | None => false end)
          = true
          <-> filled (city r) = true /\ filled (date_from r) = true
              /\ filled (date_to r) = true
              /\ (exists a, adults r = Some a /\ a <> 0)
              /\ (exists k, children r = Some k /\ k <> 0)) as Hb.
  { rewrite !andb_true_iff.
    assert (forall o : option Z,
               match o with Some a => negb (a =? 0) | None => false end = true
               <-> exists a, o = Some a /\ a <> 0) as Hcount.
    { intros [a|]; split.
      - intros H. exists a. split; [reflexivity|].
        destruct (Z.eqb_spec a 0); [discriminate | assumption].
      - intros [a' [E Ha]]. injection E as <-.
        destruct (Z.eqb_spec a 0); [contradiction | reflexivity].
      - discriminate.
      - intros [a' [E _]]. discriminate. }
    rewrite !Hcount. tauto. }
  destruct (_ && _).
  - split; [|now right]. split; [intros _; now apply Hb | reflexivity].
  - split; [|now left]. split; [discriminate|].
    intros H. apply Hb in H. discriminate.
Qed.

(** X2: a record that passes the guard is one the search node can search
    with: the node calls the search tool once, with the record as its keyword
    arguments, stores the three listings of the bundled search and leaves
    [messages] holding its announcement and the tool message. *)
Theorem guard_admits_searchable_records (st : AgentState) (r : PreferenceRecord) :
  user_preferences st = Some (as_UserPreferences r) ->
  should_search st = "search" ->
  exists line,
    search_for_airbnbs st
    = Py.Ok ({| set_user_preferences := None;
                set_search_results := Some the_three_listings;
                set_booking_confirmation := None;
                set_calendar_event_id := None;
                set_messages :=
                  Some [AIMessage "Searching for Airbnbs...";
                        ToolMessage (Listings the_three_listings)
                          "search_airbnb" "12345"] |},
             [ {| called := "search_airbnb";
                  called_with := as_UserPreferences r;
                  printed := line |} ]).
Proof.
  intros Hst Hs. rewrite (should_search_record st r Hst) in Hs.
  unfold search_for_airbnbs. rewrite Hst. cbn [entry Py.bind].
  destruct r as [c f t a k].
  destruct c as [c|], f as [f|], t as [t|], a as [a|], k as [k|];
    cbn in Hs; rewrite ?andb_false_r in Hs; try discriminate.
  eexists. reflexivity.
Qed.

(** Unpacking the preferences into the call of the search tool. *)
Lemma unpack_for_search (p : Py.dict Py.value) :
  ((forall v, ~ In ("tool_name", v) p) -> unpack ["tool_name"] [] p = Py.Ok p)
  /\ ((exists v, In ("tool_name", v) p) ->
      unpack ["tool_name"] [] p = Py.Raise Py.TypeError).
Proof.
  unfold unpack. cbn [map app].
  destruct (existsb _ (map fst p)) eqn:E.
  - apply existsb_exists in E as [k [Hin Hk]].
    cbn [existsb] in Hk. rewrite orb_false_r in Hk.
    apply String.eqb_eq in Hk. subst k.
    apply in_map_iff in Hin as [[k v] [Hk Hin]]. cbn in Hk. subst k.
    split; [intros Hno; elim (Hno v Hin) | reflexivity].
  - split; [reflexivity|]. intros [v Hin]. exfalso.
    assert (existsb (fun k => existsb (String.eqb k) ["tool_name"]) (map fst p)
            = true) as Ht.
    { apply existsb_exists. exists "tool_name". split.
      - change "tool_name" with (fst ("tool_name", v)). now apply in_map.
      - reflexivity. }
    rewrite Ht in E. discriminate.
Qed.

(** X3: the guard looks at the values of the dict, not at its keys.  A dict
    that is not empty, holds no false value and lacks one of the declared
    keys is answered [search], and the search node then raises without a
    search having been made: a validation error for the missing argument,
    or, if the dict holds the key [tool_name], the [TypeError] of a call
    that binds that parameter twice. *)
Theorem guard_does_not_check_the_keys
  (st : AgentState) (p : UserPreferences) (k : string) :
  user_preferences st = Some p ->
  p <> [] ->
  (forall key v, In (key, v) p -> Py.truthy v = true) ->
  In k declared_keys ->
  Py.getitem k p = Py.Raise Py.KeyError ->
  should_search st = "search"
  /\ ((forall v, ~ In ("tool_name", v) p) ->
      search_for_airbnbs st = Py.Raise Py.ValidationError)
  /\ ((exists v, In ("tool_name", v) p) ->
      search_for_airbnbs st = Py.Raise Py.TypeError).
Proof.
  intros Hst Hne Hall Hk Hmiss. split; [|split].
  - apply should_search_iff_all_truthy. exists p. auto.
  - intros Hno. unfold search_for_airbnbs. rewrite Hst. cbn [entry Py.bind].
    rewrite (proj1 (unpack_for_search p) Hno). cbn [Py.bind].
    rewrite complete_search_call.
    destruct (search_airbnb_tool_cases p) as [->|[_ Hkeys]]; [reflexivity|].
    destruct (Hkeys k Hk) as [v Hv]. rewrite Hv in Hmiss. discriminate.
  - intros Hyes. unfold search_for_airbnbs. rewrite Hst. cbn [entry Py.bind].
    now rewrite (proj2 (unpack_for_search p) Hyes).
Qed.

End GuardAndSearch.

(** ** What each node returns *)

Section NodeResults.

Context {model : ChatModel} {json : JsonCodec} {coercion : ArgumentCoercion}.

Lemma last_item_cases {A : Type} (l : list A) :
  (l = [] /\ Py.last_item l = Py.Raise Py.IndexError)
  \/ (exists a, Py.last_item l = Py.Ok a /\ In a l).
Proof.
  destruct l as [|x l]; [left; split; reflexivity|]. right.
  destruct (@exists_last _ (x :: l)) as [l' [a E]]; [discriminate|].
  exists a. rewrite E. split; [apply last_item_app|].
  apply in_or_app. right. now left.
Qed.

Lemma index_found_in {A : Type} (l : list A) (i : Z) (a : A) :
  Py.index l i = Py.Ok a -> In a l.
Proof.
  unfold Py.index.
  destruct (_ || _); [discriminate|].
  destruct (nth_error l _) as [b|] eqn:E; [|discriminate].
  intros H. injection H as <-. now apply nth_error_In in E.
Qed.

Lemma get_user_preferences_returns
  (st : AgentState) (u : StateUpdate) (made : list invocation) :
  get_user_preferences st = Py.Ok (u, made) ->
  made = [] /\ set_messages u = Some [].
Proof.
  unfold get_user_preferences.
  destruct (Py.last_item (messages st)) as [m|e]; cbn [Py.bind]; [|discriminate].
  destruct (extract_UserPreferences (content_of m)) as [p|e]; cbn [Py.bind];
    [|discriminate].
  intros H. injection H as <- <-. split; reflexivity.
Qed.

Lemma search_for_airbnbs_returns
  (st : AgentState) (u : StateUpdate) (made : list invocation) :
  search_for_airbnbs st = Py.Ok (u, made) ->
  exists inv o,
    made = [inv] /\ called inv = "search_airbnb"
    /\ set_messages u
       = Some [AIMessage "Searching for Airbnbs...";
               ToolMessage o "search_airbnb" "12345"].
Proof.
  unfold search_for_airbnbs.
  destruct (entry (user_preferences st)) as [p|e]; cbn [Py.bind]; [|discriminate].
  destruct (unpack _ _ p) as [kw|e]; cbn [Py.bind]; [|discriminate].
  rewrite complete_search_call.
  destruct (search_airbnb_tool kw) as [[line o]|e]; cbn [Py.bind fst snd loads_content];
    [|discriminate].
  destruct (as_listings o) as [l|e]; cbn [Py.bind]; [|discriminate].
  intros H. injection H as <- <-. do 2 eexists. repeat split.
Qed.

Lemma present_choices_returns
  (st : AgentState) (u : StateUpdate) (made : list invocation) :
  present_choices st = Py.Ok (u, made) ->
  made = [] /\ exists text, set_messages u = Some [AIMessage text].
Proof.
  unfold present_choices.
  destruct (entry (search_results st)) as [l|e]; cbn [Py.bind]; [|discriminate].
  intros H. injection H as <- <-. split; [reflexivity | eexists; reflexivity].
Qed.

Lemma book_airbnb_node_returns
  (st : AgentState) (u : StateUpdate) (made : list invocation) :
  book_airbnb_node st = Py.Ok (u, made) ->
  exists inv o,
    made = [inv] /\ called inv = "book_airbnb"
    /\ set_messages u
       = Some [AIMessage "Booking the Airbnb...";
               ToolMessage o "book_airbnb" "12345"].
Proof.
  unfold book_airbnb_node.
  destruct (entry (user_preferences st)) as [p|e]; cbn [Py.bind]; [|discriminate].
  destruct (entry (chosen_airbnb st)) as [l|e]; cbn [Py.bind]; [|discriminate].
  destruct (unpack _ _ p) as [kw|e]; cbn [Py.bind]; [|discriminate].
  rewrite complete_book_call.
  destruct (book_airbnb_tool _) as [[line o]|e]; cbn [Py.bind fst snd loads_content];
    [|discriminate].
  destruct (as_text o) as [t|e]; cbn [Py.bind]; [|discriminate].
  intros H. injection H as <- <-. do 2 eexists. repeat split.
Qed.

Lemma create_calendar_event_node_returns
  (st : AgentState) (u : StateUpdate) (made : list invocation) :
  create_calendar_event_node st = Py.Ok (u, made) ->
  exists inv o,
    made = [inv] /\ called inv = "create_google_calendar_event"
    /\ set_messages u
       = Some [AIMessage "Creating Google Calendar event...";
               ToolMessage o "create_google_calendar_event" "12345"].
Proof.
  unfold create_calendar_event_node.
  destruct (entry (user_preferences st)) as [p|e]; cbn [Py.bind]; [|discriminate].
  destruct (entry (chosen_airbnb st)) as [l|e]; cbn [Py.bind]; [|discriminate].
  destruct (Py.getitem "date_from" p) as [v1|e]; cbn [Py.bind]; [|discriminate].
  destruct (Py.getitem "date_to" p) as [v2|e]; cbn [Py.bind]; [|discriminate].
  rewrite complete_calendar_call.
  destruct (create_google_calendar_event_tool _) as [[line o]|e];
    cbn [Py.bind fst snd loads_content]; [|discriminate].
  destruct (as_text o) as [t|e]; cbn [Py.bind]; [|discriminate].
  intros H. injection H as <- <-. do 2 eexists. repeat split.
Qed.

(** X4: no node keeps the messages it was given.  Whatever the transcript
    was, after a node the state holds exactly the messages that node
    produced: none for the preference node, and otherwise one or two assistant
    or tool messages, never a message of the user. *)
Theorem every_node_replaces_the_messages
  (n : node) (st : AgentState) (u : StateUpdate) (made : list invocation) :
  node_action n st = Py.Ok (u, made) ->
  exists produced,
    set_messages u = Some produced
    /\ messages (apply_update st u) = produced
    /\ (List.length produced <= 2)%nat
    /\ (n = N_get_user_preferences -> produced = [])
    /\ forall m, In m produced -> forall text, m <> HumanMessage text.
Proof.
  intros H.
  assert (exists produced,
             set_messages u = Some produced
             /\ (List.length produced <= 2)%nat
             /\ (n = N_get_user_preferences -> produced = [])
             /\ forall m, In m produced -> forall text, m <> HumanMessage text)
    as [produced [Hu Hrest]].
  { destruct n; cbn [node_action] in H.
    - apply get_user_preferences_returns in H as [_ ->].
      exists []. repeat split; [cbn; lia | intros m []].
    - apply search_for_airbnbs_returns in H as (inv & o & _ & _ & ->).
      eexists. split; [reflexivity|]. repeat split; [cbn; lia | discriminate |].
      intros m [<-|[<-|[]]] text; discriminate.
    - apply present_choices_returns in H as [_ [text ->]].
      eexists. split; [reflexivity|]. repeat split; [cbn; lia | discriminate |].
      intros m [<-|[]] t; discriminate.
    - apply book_airbnb_node_returns in H as (inv & o & _ & _ & ->).
      eexists. split; [reflexivity|]. repeat split; [cbn; lia | discriminate |].
      intros m [<-|[<-|[]]] text; discriminate.
    - apply create_calendar_event_node_returns in H as (inv & o & _ & _ & ->).
      eexists. split; [reflexivity|]. repeat split; [cbn; lia | discriminate |].
      intros m [<-|[<-|[]]] text; discriminate. }
  exists produced. split; [exact Hu|]. split; [|exact Hrest].
  unfold apply_update. cbn [messages]. now rewrite Hu.
Qed.

(** X5: the preference node has no fallback.  When the structured extraction
    of the preferences raises, the exception leaves the node and ends the run
    there, before any tool is called (the choice step, by contrast, catches
    the exception of its extraction). *)
Theorem preference_extraction_failure_ends_the_run
  (st : AgentState) (m : AnyMessage) (e : Py.exn) (fuel : nat) :
  Py.last_item (messages st) = Py.Ok m ->
  extract_UserPreferences (content_of m) = Py.Raise e ->
  get_user_preferences st = Py.Raise e
  /\ invoke_graph (S fuel) st = Crashed e [N_get_user_preferences] [].
Proof.
  intros Hm Hx.
  assert (get_user_preferences st = Py.Raise e) as Hnode
    by (unfold get_user_preferences; rewrite Hm; cbn [Py.bind]; now rewrite Hx).
  split; [exact Hnode|].
  unfold invoke_graph, entry_point. cbn [run node_action]. now rewrite Hnode.
Qed.

End NodeResults.

(** ** Routing after the presentation and after the booking *)

Section Routing.

Context {model : ChatModel} {json : JsonCodec} {coercion : ArgumentCoercion}.

Lemma last_item_pair {A : Type} (a b : A) : Py.last_item [a; b] = Py.Ok b.
Proof. reflexivity. Qed.

Lemma try_choice_too_negative
  (st : AgentState) (utterance : string) (results : list AirbnbSearchResult) (n : Z) :
  extract_Choice utterance = Py.Ok {| choice := n |} ->
  search_results st = Some results ->
  n < 1 - Z.of_nat (List.length results) ->
  try_choice st utterance = Py.Raise Py.IndexError.
Proof.
  intros Hx Hr Hn. unfold try_choice. rewrite Hx, Hr.
  cbn [Py.bind entry choice]. apply index_too_negative. lia.
Qed.

(** X6: what the choice step can do to the state.  It answers one of its
    three labels; on [book] the listing it stores is one of the stored search
    results and nothing else of the state changes, and on [refine_search] and
    [end] the state is left as it was. *)
Theorem decide_next_step_outcomes
  (st st' : AgentState) (label : string) :
  decide_next_step st = Py.Ok (label, st') ->
  (label = "book"
   /\ exists results listing,
        search_results st = Some results /\ In listing results
        /\ st' = with_chosen_airbnb st listing)
  \/ ((label = "refine_search" \/ label = "end") /\ st' = st).
Proof.
  unfold decide_next_step.
  destruct (Py.last_item (messages st)) as [m|e]; cbn [Py.bind]; [|discriminate].
  destruct (try_choice st (content_of m)) as [listing|e] eqn:Et.
  - intros H. injection H as <- <-. left. split; [reflexivity|].
    unfold try_choice in Et.
    destruct (extract_Choice (content_of m)) as [c|e]; cbn [Py.bind] in Et;
      [|discriminate].
    destruct (search_results st) as [results|]; cbn [entry Py.bind] in Et;
      [|discriminate].
    exists results, listing. repeat split. now apply index_found_in in Et.
  - destruct (_ || _); intros H; injection H as <- <-; right; auto.
Qed.

(** X7: an edge of the graph fails only for want of a message.  Following
    the edge that leaves a node raises exactly when the node is the
    presentation or the booking node and [messages] is empty, and the
    exception is then the [IndexError] of the subscript [-1]: every label a
    routing function returns has an entry in its path map. *)
Theorem edges_raise_only_without_a_message
  (n : node) (st : AgentState) (e : Py.exn) :
  outgoing n st = Py.Raise e <->
  e = Py.IndexError /\ messages st = []
  /\ (n = N_present_choices \/ n = N_book_airbnb).
Proof.
  destruct n; cbn [outgoing]; unfold conditional_edges; cbn [Py.bind fst snd].
  - unfold should_search.
    destruct (user_preferences st) as [p|];
      [destruct (_ && _)|]; (split; [discriminate | intros (_&_&[?|?]); discriminate]).
  - split; [discriminate | intros (_&_&[?|?]); discriminate].
  - unfold decide_next_step.
    destruct (last_item_cases (messages st)) as [[Hnil ->]|[m [-> Hin]]];
      cbn [Py.bind].
    + split; [intros H; injection H as <-; auto | intros (-> & _ & _); reflexivity].
    + assert (messages st <> []) as Hne by (intros E; rewrite E in Hin; destruct Hin).
      destruct (try_choice st (content_of m)); [|destruct (_ || _)];
        cbn [Py.bind fst snd]; (split; [discriminate | intros (_ & E & _); contradiction]).
  - unfold should_create_calendar_event.
    destruct (last_item_cases (messages st)) as [[Hnil ->]|[m [-> Hin]]];
      cbn [Py.bind].
    + split; [intros H; injection H as <-; auto | intros (-> & _ & _); reflexivity].
    + assert (messages st <> []) as Hne by (intros E; rewrite E in Hin; destruct Hin).
      destruct (_ || _); cbn [Py.bind fst snd];
        (split; [discriminate | intros (_ & E & _); contradiction]).
  - split; [discriminate | intros (_&_&[?|?]); discriminate].
Qed.

(** X8: how the extracted number decides.  With [len] stored results, a
    number from 1 to [len] books the listing at that position (also a
    position beyond the three that were presented); a number from [1 - len]
    to 0 books the listing counted from the end; every other number is
    answered by the fallback, [refine_search] or [end], with the state left
    as it was. *)
Theorem extracted_number_decides
  (st : AgentState) (m : AnyMessage) (results : list AirbnbSearchResult) (n : Z) :
  Py.last_item (messages st) = Py.Ok m ->
  extract_Choice (content_of m) = Py.Ok {| choice := n |} ->
  search_results st = Some results ->
  (1 <= n <= Z.of_nat (List.length results) ->
   exists listing,
     nth_error results (Z.to_nat (n - 1)) = Some listing
     /\ decide_next_step st = Py.Ok ("book", with_chosen_airbnb st listing))
  /\ (1 - Z.of_nat (List.length results) <= n <= 0 ->
      exists listing,
        nth_error results (Z.to_nat (n - 1 + Z.of_nat (List.length results)))
        = Some listing
        /\ decide_next_step st = Py.Ok ("book", with_chosen_airbnb st listing))
  /\ (n < 1 - Z.of_nat (List.length results)
      \/ Z.of_nat (List.length results) < n ->
      exists label,
        decide_next_step st = Py.Ok (label, st) /\ graceful label = true).
Proof.
  intros Hm Hx Hr. repeat split.
  - intros Hn. now apply (choice_in_range_books st m results n).
  - intros Hn. now apply (choice_not_positive_books st m results n).
  - intros [Hn|Hn].
    + rewrite (decide_next_step_fallback st m _ Hm
                 (try_choice_too_negative st _ results n Hx Hr Hn)).
      destruct (_ || _); eexists; split; reflexivity.
    + now apply (choice_beyond_results_is_graceful st m results n).
Qed.

(** X9: the booking node and the confirmation that follows it.  For a record
    with all five fields set and a chosen listing, the node calls the booking
    tool once, with the listing's url ahead of the record's entries, and
    stores the tool's confirmation text.  The routing function that follows
    then reads the last message the node left, which is the tool message: its
    answer is decided by the JSON text of that confirmation, not by a reply
    of the user. *)
Theorem booking_then_confirmation
  (st : AgentState) (r : PreferenceRecord) (listing : AirbnbSearchResult) :
  user_preferences st = Some (as_UserPreferences r) ->
  chosen_airbnb st = Some listing ->
  missing_required r = false ->
  is_set (children r) = true ->
  let confirmation := Text "Successfully booked the Airbnb listing." in
  exists u line,
    book_airbnb_node st
    = Py.Ok (u, [ {| called := "book_airbnb";
                     called_with :=
                       ("listing_url", Py.Str (url listing)) :: as_UserPreferences r;
                     printed := line |} ])
    /\ set_booking_confirmation u = Some "Successfully booked the Airbnb listing."
    /\ messages (apply_update st u)
       = [AIMessage "Booking the Airbnb...";
          ToolMessage confirmation "book_airbnb" "12345"]
    /\ should_create_calendar_event (apply_update st u)
       = Py.Ok (if Py.contains "yes" (Py.lower (json_dumps confirmation))
                   || Py.contains "sure" (Py.lower (json_dumps confirmation))
                then "create_event" else "end").
Proof.
  intros Hp Hl Hreq Hk confirmation.
  destruct r as [c f t a k]. unfold missing_required in Hreq. cbn in Hreq, Hk.
  destruct c as [c|], f as [f|], t as [t|], a as [a|], k as [k|];
    try discriminate.
  unfold book_airbnb_node. rewrite Hp, Hl. cbn [entry Py.bind].
  do 2 eexists. split; [reflexivity|]. split; [reflexivity|].
  split; [reflexivity|].
  unfold should_create_calendar_event, apply_update.
  cbn [messages or_keep set_messages fst snd].
  rewrite last_item_pair. cbn [Py.bind content_of book_airbnb snd].
  fold confirmation. now destruct (_ || _).
Qed.

(** X10: the scheduling node formats whatever the two dates hold.  The start
    and end times are [str] of the stored values followed by the fixed times
    of day, so a date that holds [None] yields a time that begins with the
    word None, and the calendar tool is called all the same. *)
Theorem calendar_times_format_any_value
  (st : AgentState) (preferences : UserPreferences)
  (listing : AirbnbSearchResult) (check_in check_out : Py.value) :
  user_preferences st = Some preferences ->
  chosen_airbnb st = Some listing ->
  Py.getitem "date_from" preferences = Py.Ok check_in ->
  Py.getitem "date_to" preferences = Py.Ok check_out ->
  (exists update line,
      create_calendar_event_node st
      = Py.Ok (update,
               [ {| called := "create_google_calendar_event";
                    called_with :=
                      [ ("summary", Py.Str ("Airbnb Booking: " ++ name listing));
                        ("start_time", Py.Str (Py.str check_in ++ "T09:00:00"));
                        ("end_time", Py.Str (Py.str check_out ++ "T11:00:00"));
                        ("description",
                         Py.Str ("Booking confirmation for " ++ name listing ++ ".")) ];
                    printed := line |} ])
      /\ set_calendar_event_id update = Some "mock_event_id")
  /\ (check_in = Py.None_ -> Py.str check_in ++ "T09:00:00" = "NoneT09:00:00").
Proof.
  intros Hp Hl Hfrom Hto. split.
  - unfold create_calendar_event_node.
    rewrite Hp, Hl. cbn [entry Py.bind]. rewrite Hfrom, Hto. cbn [Py.bind].
    do 2 eexists. split; reflexivity.
  - intros ->. reflexivity.
Qed.

End Routing.

(** ** The order of the tool calls in a run *)

Section ToolCallOrder.

Context {model : ChatModel} {json : JsonCodec} {coercion : ArgumentCoercion}.

Lemma node_action_calls
  (n : node) (st : AgentState) (u : StateUpdate) (made : list invocation) :
  node_action n st = Py.Ok (u, made) ->
  map called made
  = match n with
    | N_get_user_preferences => []
    | N_search_for_airbnbs => ["search_airbnb"]
    | N_present_choices => []
    | N_book_airbnb => ["book_airbnb"]
    | N_create_calendar_event => ["create_google_calendar_event"]
    end.
Proof.
  destruct n; cbn [node_action]; intros H.
  - now apply get_user_preferences_returns in H as [-> _].
  - apply search_for_airbnbs_returns in H as (inv & o & -> & Hc & _).
    cbn. now rewrite Hc.
  - now apply present_choices_returns in H as [-> _].
  - apply book_airbnb_node_returns in H as (inv & o & -> & Hc & _).
    cbn. now rewrite Hc.
  - apply create_calendar_event_node_returns in H as (inv & o & -> & Hc & _).
    cbn. now rewrite Hc.
Qed.

(** The edges of the graph. *)
Lemma outgoing_destinations
  (n : node) (st st' : AgentState) (t : target) :
  outgoing n st = Py.Ok (t, st') ->
  match n with
  | N_get_user_preferences => t = To N_search_for_airbnbs \/ t = END
  | N_search_for_airbnbs => t = To N_present_choices
  | N_present_choices =>
      t = To N_book_airbnb \/ t = To N_get_user_preferences \/ t = END
  | N_book_airbnb => t = To N_create_calendar_event \/ t = END
  | N_create_calendar_event => t = END
  end.
Proof.
  destruct n; cbn [outgoing]; unfold conditional_edges; cbn [Py.bind fst snd].
  - unfold should_search.
    destruct (user_preferences st) as [p|]; [destruct (_ && _)|];
      intros H; injection H as <- _; auto.
  - intros H. now injection H as <- _.
  - unfold decide_next_step.
    destruct (Py.last_item (messages st)) as [m|e]; cbn [Py.bind]; [|discriminate].
    destruct (try_choice st (content_of m)); [|destruct (_ || _)];
      cbn [Py.bind fst snd]; intros H; injection H as <- _; auto.
  - unfold should_create_calendar_event.
    destruct (Py.last_item (messages st)) as [m|e]; cbn [Py.bind]; [|discriminate].
    destruct (_ || _); cbn [Py.bind fst snd]; intros H; injection H as <- _; auto.
  - intros H. now injection H as <- _.
Qed.

Lemma repeat_snoc {A : Type} (a : A) (k : nat) :
  (repeat a k ++ [a])%list = repeat a (S k).
Proof. cbn. now rewrite repeat_cons. Qed.

(** The invariant of [run]: the calls made before node [n] runs, and the
    calls when the run is over. *)
Lemma run_calls_in_order (fuel : nat) :
  forall (n : node) (st : AgentState) (visited : list node)
         (calls : list invocation),
    (exists k,
        map called calls
        = match n with
          | N_get_user_preferences => repeat "search_airbnb" k
          | N_search_for_airbnbs => repeat "search_airbnb" k
          | N_present_choices => repeat "search_airbnb" (S k)
          | N_book_airbnb => repeat "search_airbnb" (S k)
          | N_create_calendar_event =>
              (repeat "search_airbnb" (S k) ++ ["book_airbnb"])%list
          end) ->
    exists k,
      map called (calls_of (run fuel n st visited calls))
      = repeat "search_airbnb" k
      \/ map called (calls_of (run fuel n st visited calls))
         = (repeat "search_airbnb" (S k) ++ ["book_airbnb"])%list
      \/ map called (calls_of (run fuel n st visited calls))
         = (repeat "search_airbnb" (S k)
              ++ ["book_airbnb"; "create_google_calendar_event"])%list.
Proof.
  induction fuel as [|fuel IH]; intros n st visited calls [k Hk].
  - cbn [run calls_of]. rewrite Hk.
    destruct n; eauto.
  - cbn [run].
    destruct (node_action n st) as [[u made]|e] eqn:Hn.
    2:{ cbn [calls_of]. rewrite Hk. destruct n; eauto. }
    pose proof (node_action_calls n st u made Hn) as Hmade.
    assert (map called (calls ++ made)
            = (map called calls ++ map called made)%list) as Happ
      by apply map_app.
    rewrite Hk, Hmade in Happ.
    destruct (outgoing n (apply_update st u)) as [[t st']|e] eqn:Ho.
    2:{ cbn [calls_of]. rewrite Happ.
        destruct n; rewrite ?app_nil_r, ?repeat_snoc; eauto.
        exists k. right. right. now rewrite <- app_assoc. }
    apply outgoing_destinations in Ho.
    destruct n.
    + rewrite app_nil_r in Happ.
      destruct Ho as [->| ->]; [apply IH; eauto | cbn [calls_of]; eauto].
    + rewrite repeat_snoc in Happ. subst t. apply IH. eauto.
    + rewrite app_nil_r in Happ.
      destruct Ho as [->|[->| ->]];
        [apply IH; eauto | apply IH; eauto | cbn [calls_of]; eauto].
    + destruct Ho as [->| ->]; [apply IH; eauto | cbn [calls_of]; eauto].
    + subst t. cbn [calls_of]. exists k. right. right.
      now rewrite Happ, <- app_assoc.
Qed.

(** Without a chosen listing the booking node raises. *)
Lemma book_airbnb_node_needs_a_choice (st : AgentState) :
  chosen_airbnb st = None -> exists e, book_airbnb_node st = Py.Raise e.
Proof.
  intros H. unfold book_airbnb_node. rewrite H.
  destruct (entry (user_preferences st)) as [p|e]; cbn [Py.bind entry];
    eexists; reflexivity.
Qed.

(** A run that starts without a chosen listing never has one: no node
    returns [chosen_airbnb], and what the choice step assigns is not kept.
    So such a run calls the search and nothing else. *)
Lemma run_without_a_choice (fuel : nat) :
  forall (n : node) (st : AgentState) (visited : list node)
         (calls : list invocation),
    chosen_airbnb st = None ->
    n <> N_create_calendar_event ->
    (exists k, map called calls = repeat "search_airbnb" k) ->
    exists k,
      map called (calls_of (run fuel n st visited calls))
      = repeat "search_airbnb" k.
Proof.
  induction fuel as [|fuel IH]; intros n st visited calls Hnone Hn [k Hk].
  - cbn [run calls_of]. eauto.
  - cbn [run].
    destruct (node_action n st) as [[u made]|e] eqn:Hact.
    2:{ cbn [calls_of]. eauto. }
    pose proof (node_action_calls n st u made Hact) as Hmade.
    assert (map called (calls ++ made)
            = (map called calls ++ map called made)%list) as Happ
      by apply map_app.
    rewrite Hk, Hmade in Happ.
    assert (chosen_airbnb (apply_update st u) = None) as Hnone' by exact Hnone.
    destruct n; try contradiction.
    + rewrite app_nil_r in Happ.
      destruct (outgoing N_get_user_preferences (apply_update st u))
        as [[t st']|e] eqn:Ho; [|cbn [calls_of]; eauto].
      apply outgoing_destinations in Ho as [->| ->];
        [apply IH; [assumption | discriminate | eauto] | cbn [calls_of]; eauto].
    + rewrite repeat_snoc in Happ.
      destruct (outgoing N_search_for_airbnbs (apply_update st u))
        as [[t st']|e] eqn:Ho; [|cbn [calls_of]; eauto].
      apply outgoing_destinations in Ho as ->.
      apply IH; [assumption | discriminate | eauto].
    + rewrite app_nil_r in Happ.
      destruct (outgoing N_present_choices (apply_update st u))
        as [[t st']|e] eqn:Ho; [|cbn [calls_of]; eauto].
      apply outgoing_destinations in Ho as [->|[->| ->]];
        [apply IH; [assumption | discriminate | eauto]
        |apply IH; [assumption | discriminate | eauto]
        |cbn [calls_of]; eauto].
    + cbn [node_action] in Hact.
      destruct (book_airbnb_node_needs_a_choice st Hnone) as [e He].
      rewrite He in Hact. discriminate.
Qed.

(** X11: the order of the tool calls.  However a run of the graph ends
    (finished, crashed or stopped by the recursion limit), the tools it has
    called are: the search some number of times, then at most one booking,
    then at most one calendar event; a booking is always preceded by a
    search, and a calendar event by a booking.  And a run that is started
    without a chosen listing, as [main] starts every run, calls nothing but
    the search: the listing the choice step assigns is not kept, so the
    booking node raises. *)
Theorem tool_calls_come_in_order (fuel : nat) (st : AgentState) :
  (exists k,
      map called (calls_of (invoke_graph fuel st)) = repeat "search_airbnb" k
      \/ map called (calls_of (invoke_graph fuel st))
         = (repeat "search_airbnb" (S k) ++ ["book_airbnb"])%list
      \/ map called (calls_of (invoke_graph fuel st))
         = (repeat "search_airbnb" (S k)
              ++ ["book_airbnb"; "create_google_calendar_event"])%list)
  /\ (chosen_airbnb st = None ->
      exists k,
        map called (calls_of (invoke_graph fuel st)) = repeat "search_airbnb" k)
  /\ (forall conversation,
        exists k,
          map called (calls_of (invoke_graph fuel (initial_state_of conversation)))
          = repeat "search_airbnb" k).
Proof.
  unfold invoke_graph, entry_point. split; [|split].
  - apply run_calls_in_order. exists 0%nat. reflexivity.
  - intros Hnone. apply run_without_a_choice;
      [exact Hnone | discriminate | exists 0%nat; reflexivity].
  - intros conversation. apply run_without_a_choice;
      [reflexivity | discriminate | exists 0%nat; reflexivity].
Qed.

End ToolCallOrder.

(** ** The session *)

Section Session.

Context {model : ChatModel} {json : JsonCodec} {coercion : ArgumentCoercion}.

Lemma handle_event_without_messages
  (u : StateUpdate) (messages : list AnyMessage) (stdout : list string) :
  set_messages u = Some [] ->
  handle_event u messages stdout = Py.Raise Py.IndexError.
Proof. intros H. unfold handle_event. now rewrite H. Qed.

Lemma exit_word_test (line : string) :
  existsb (String.eqb (Py.lower line)) ["exit"; "quit"] = true
  <-> Py.lower line = "exit" \/ Py.lower line = "quit".
Proof.
  cbn [existsb]. rewrite orb_false_r, orb_true_iff, !String.eqb_eq. tauto.
Qed.

Lemma preference_edge_never_raises (st : AgentState) :
  exists t, outgoing N_get_user_preferences st = Py.Ok (t, st).
Proof.
  cbn [outgoing]. unfold conditional_edges. cbn [Py.bind fst snd].
  unfold should_search.
  destruct (user_preferences st) as [p|]; [destruct (_ && _)|];
    eexists; reflexivity.
Qed.

(** X12: the loop of [main] cannot take the event of the preference node.
    That node always returns an empty [messages], and the loop body
    subscripts it with [-1]: whenever the node returns, handling its event
    raises [IndexError], before anything is printed or appended. *)
Theorem preference_event_breaks_the_loop
  (st : AgentState) (u : StateUpdate) (made : list invocation)
  (transcript : list AnyMessage) (stdout : list string) :
  get_user_preferences st = Py.Ok (u, made) ->
  handle_event u transcript stdout = Py.Raise Py.IndexError.
Proof.
  intros H. apply get_user_preferences_returns in H as [_ Hu].
  now apply handle_event_without_messages.
Qed.

(** X13: a line that reads exit or quit, in any letter case, ends the
    session at once: the graph is not run, nothing is added to the
    transcript, and the lines after it are not read. *)
Theorem exit_or_quit_leaves_the_session
  (fuel : nat) (line : string) (rest : list string) :
  Py.lower line = "exit" \/ Py.lower line = "quit" ->
  main fuel (line :: rest) = Left [greeting] ["You: "].
Proof.
  intros H. apply exit_word_test in H.
  unfold main. cbn [main_loop]. now rewrite H.
Qed.

(** X14: any other first line ends the session with an exception.  The line
    is appended to the transcript and the graph is started; either the
    extraction of the preferences raises, or the preference node returns and
    its event breaks the loop with [IndexError].  No tool is called, nothing
    is printed for the user, and no second line is read. *)
Theorem any_other_line_ends_in_an_exception
  (fuel : nat) (line : string) (rest : list string) :
  Py.lower line <> "exit" ->
  Py.lower line <> "quit" ->
  main (S fuel) (line :: rest)
  = Uncaught (match extract_UserPreferences line with
              | Py.Ok _ => Py.IndexError
              | Py.Raise e => e
              end)
      [greeting; HumanMessage line] ["You: "].
Proof.
  intros He Hq.
  assert (existsb (String.eqb (Py.lower line)) ["exit"; "quit"] = false) as Hno.
  { destruct (existsb _ _) eqn:E; [|reflexivity].
    apply exit_word_test in E. tauto. }
  unfold main. cbn [main_loop]. rewrite Hno.
  cbn [app stream_turn entry_point node_action].
  unfold get_user_preferences.
  change (Py.last_item (messages (initial_state_of [greeting; HumanMessage line])))
    with (Py.Ok (HumanMessage line)).
  cbn [Py.bind content_of].
  destruct (extract_UserPreferences line) as [p|e]; cbn [Py.bind]; [|reflexivity].
  cbn [map app].
  destruct (preference_edge_never_raises
              (apply_update (initial_state_of [greeting; HumanMessage line])
                 {| set_user_preferences := Some p;
                    set_search_results := None;
                    set_booking_confirmation := None;
                    set_calendar_event_id := None;
                    set_messages := Some [] |})) as [t Ht].
  unfold entry_point. rewrite Ht. reflexivity.
Qed.

End Session.

(** ** These properties on the sample conversations *)

Section MoreSamples.

#[local] Existing Instance no_coercion.

(** The guard on the couple without children: answered [ask_for_info]. *)
Lemma couple_without_children_is_asked_again :
  user_preferences couple_state = Some (as_UserPreferences paris_couple)
  /\ (should_search couple_state = "search" <->
      filled (city paris_couple) = true /\ filled (date_from paris_couple) = true
      /\ filled (date_to paris_couple) = true
      /\ (exists a, adults paris_couple = Some a /\ a <> 0)
      /\ (exists k, children paris_couple = Some k /\ k <> 0))
  /\ (should_search couple_state = "ask_for_info"
      \/ should_search couple_state = "search").
Proof.
  split; [reflexivity|].
  apply (search_guard_on_a_full_record couple_state paris_couple). reflexivity.
Defined.

(** The family's record passes the guard and is searched with. *)
Lemma family_record_is_searched_with :
  (user_preferences family_state = Some (as_UserPreferences paris_family)
   /\ should_search family_state = "search")
  /\ exists line,
       search_for_airbnbs family_state
       = Py.Ok ({| set_user_preferences := None;
                   set_search_results := Some the_three_listings;
                   set_booking_confirmation := None;
                   set_calendar_event_id := None;
                   set_messages :=
                     Some [AIMessage "Searching for Airbnbs...";
                           ToolMessage (Listings the_three_listings)
                             "search_airbnb" "12345"] |},
                [ {| called := "search_airbnb";
                     called_with := as_UserPreferences paris_family;
                     printed := line |} ]).
Proof.
  split; [split; reflexivity|].
  apply (guard_admits_searchable_records family_state paris_family); reflexivity.
Defined.

(** A dict with the city alone passes the guard and fails the search. *)
Lemma city_alone_passes_the_guard_and_fails :
  (user_preferences city_only_state = Some city_only
   /\ city_only <> []
   /\ (forall key v, In (key, v) city_only -> Py.truthy v = true)
   /\ In "date_from" declared_keys
   /\ Py.getitem "date_from" city_only = Py.Raise Py.KeyError)
  /\ should_search city_only_state = "search"
  /\ ((forall v, ~ In ("tool_name", v) city_only) ->
      search_for_airbnbs city_only_state = Py.Raise Py.ValidationError)
  /\ ((exists v, In ("tool_name", v) city_only) ->
      search_for_airbnbs city_only_state = Py.Raise Py.TypeError).
Proof.
  assert (city_only <> []) as Hne by discriminate.
  assert (forall key v, In (key, v) city_only -> Py.truthy v = true) as Hall
    by (intros key v [H|[]]; injection H as _ <-; reflexivity).
  assert (In "date_from" declared_keys) as Hin by (right; now left).
  split; [repeat split; assumption|].
  apply (guard_does_not_check_the_keys city_only_state city_only "date_from");
    [reflexivity | exact Hne | exact Hall | exact Hin | reflexivity].
Defined.

(** The presentation of an empty result list leaves one assistant message. *)
Lemma presentation_replaces_the_messages :
  node_action (model := silent_model) (json := sample_json)
    N_present_choices no_results_state = Py.Ok (heading_only, [])
  /\ exists produced,
       set_messages heading_only = Some produced
       /\ messages (apply_update no_results_state heading_only) = produced
       /\ (List.length produced <= 2)%nat
       /\ (N_present_choices = N_get_user_preferences -> produced = [])
       /\ forall m, In m produced -> forall text, m <> HumanMessage text.
Proof.
  split; [reflexivity|].
  apply (every_node_replaces_the_messages (model := silent_model)
           (json := sample_json) N_present_choices no_results_state
           heading_only []).
  reflexivity.
Defined.

(** A model that raises on the first turn. *)
Lemma silent_model_ends_the_first_turn :
  (Py.last_item (messages first_turn_state)
   = Py.Ok (HumanMessage "Paris, two adults and a child")
   /\ extract_UserPreferences (ChatModel := silent_model)
        (content_of (json := sample_json)
           (HumanMessage "Paris, two adults and a child"))
      = Py.Raise Py.OutputParserException)
  /\ get_user_preferences (model := silent_model) (json := sample_json)
       first_turn_state = Py.Raise Py.OutputParserException
  /\ invoke_graph (model := silent_model) (json := sample_json) 25 first_turn_state
     = Crashed Py.OutputParserException [N_get_user_preferences] [].
Proof.
  split; [split; reflexivity|].
  apply (preference_extraction_failure_ends_the_run (model := silent_model)
           (json := sample_json) first_turn_state
           (HumanMessage "Paris, two adults and a child")
           Py.OutputParserException 24); reflexivity.
Defined.

(** The outcome of the choice step when the number 0 is extracted. *)
Lemma choice_zero_outcome :
  decide_next_step (model := choice_zero_model) (json := sample_json)
    option_zero_state
  = Py.Ok ("book", with_chosen_airbnb option_zero_state cottage)
  /\ (("book" = "book"
       /\ exists results listing,
            search_results option_zero_state = Some results
            /\ In listing results
            /\ with_chosen_airbnb option_zero_state cottage
               = with_chosen_airbnb option_zero_state listing)
      \/ (("book" = "refine_search" \/ "book" = "end")
          /\ with_chosen_airbnb option_zero_state cottage = option_zero_state)).
Proof.
  split; [reflexivity|].
  apply (decide_next_step_outcomes (model := choice_zero_model)
           (json := sample_json) option_zero_state). reflexivity.
Defined.

(** The number 2 on the three listings. *)
Lemma number_two_on_three_listings :
  (Py.last_item (messages option_zero_state) = Py.Ok (HumanMessage "option 0")
   /\ extract_Choice (ChatModel := choice_model 2)
        (content_of (json := sample_json) (HumanMessage "option 0"))
      = Py.Ok {| choice := 2 |}
   /\ search_results option_zero_state = Some the_three_listings)
  /\ (1 <= 2 <= Z.of_nat (List.length the_three_listings) ->
      exists listing,
        nth_error the_three_listings (Z.to_nat (2 - 1)) = Some listing
        /\ decide_next_step (model := choice_model 2) (json := sample_json)
             option_zero_state
           = Py.Ok ("book", with_chosen_airbnb option_zero_state listing))
  /\ (1 - Z.of_nat (List.length the_three_listings) <= 2 <= 0 ->
      exists listing,
        nth_error the_three_listings
          (Z.to_nat (2 - 1 + Z.of_nat (List.length the_three_listings)))
        = Some listing
        /\ decide_next_step (model := choice_model 2) (json := sample_json)
             option_zero_state
           = Py.Ok ("book", with_chosen_airbnb option_zero_state listing))
  /\ (2 < 1 - Z.of_nat (List.length the_three_listings)
      \/ Z.of_nat (List.length the_three_listings) < 2 ->
      exists label,
        decide_next_step (model := choice_model 2) (json := sample_json)
          option_zero_state = Py.Ok (label, option_zero_state)
        /\ graceful label = true).
Proof.
  split; [repeat split|].
  apply (extracted_number_decides (model := choice_model 2) (json := sample_json)
           option_zero_state (HumanMessage "option 0") the_three_listings 2);
    reflexivity.
Defined.

(** Booking the loft for the family. *)
Lemma booking_the_loft :
  (user_preferences chosen_loft_state = Some (as_UserPreferences paris_family)
   /\ chosen_airbnb chosen_loft_state = Some loft
   /\ missing_required paris_family = false
   /\ is_set (children paris_family) = true)
  /\ exists u line,
       book_airbnb_node chosen_loft_state
       = Py.Ok (u, [ {| called := "book_airbnb";
                        called_with :=
                          ("listing_url", Py.Str (url loft))
                            :: as_UserPreferences paris_family;
                        printed := line |} ])
       /\ set_booking_confirmation u
          = Some "Successfully booked the Airbnb listing."
       /\ messages (apply_update chosen_loft_state u)
          = [AIMessage "Booking the Airbnb...";
             ToolMessage (Text "Successfully booked the Airbnb listing.")
               "book_airbnb" "12345"]
       /\ should_create_calendar_event (json := sample_json)
            (apply_update chosen_loft_state u)
          = Py.Ok (if Py.contains "yes"
                        (Py.lower (json_dumps (JsonCodec := sample_json)
                           (Text "Successfully booked the Airbnb listing.")))
                      || Py.contains "sure"
                           (Py.lower (json_dumps (JsonCodec := sample_json)
                              (Text "Successfully booked the Airbnb listing.")))
                   then "create_event" else "end").
Proof.
  split; [repeat split|].
  apply (booking_then_confirmation (json := sample_json) chosen_loft_state
           paris_family loft); reflexivity.
Defined.

(** A check-in date that holds [None]. *)
Lemma calendar_event_without_a_check_in :
  (user_preferences no_check_in_state
   = Some [("date_from", Py.None_); ("date_to", Py.Str "2024-07-05")]
   /\ chosen_airbnb no_check_in_state = Some loft
   /\ Py.getitem "date_from"
        [("date_from", Py.None_); ("date_to", Py.Str "2024-07-05")]
      = Py.Ok Py.None_
   /\ Py.getitem "date_to"
        [("date_from", Py.None_); ("date_to", Py.Str "2024-07-05")]
      = Py.Ok (Py.Str "2024-07-05"))
  /\ (exists update line,
         create_calendar_event_node no_check_in_state
         = Py.Ok (update,
                  [ {| called := "create_google_calendar_event";
                       called_with :=
                         [ ("summary", Py.Str ("Airbnb Booking: " ++ name loft));
                           ("start_time", Py.Str (Py.str Py.None_ ++ "T09:00:00"));
                           ("end_time",
                            Py.Str (Py.str (Py.Str "2024-07-05") ++ "T11:00:00"));
                           ("description",
                            Py.Str ("Booking confirmation for " ++ name loft ++ ".")) ];
                       printed := line |} ])
         /\ set_calendar_event_id update = Some "mock_event_id")
  /\ (Py.None_ = Py.None_ -> Py.str Py.None_ ++ "T09:00:00" = "NoneT09:00:00").
Proof.
  split; [repeat split|].
  apply (calendar_times_format_any_value no_check_in_state
           [("date_from", Py.None_); ("date_to", Py.Str "2024-07-05")]
           loft Py.None_ (Py.Str "2024-07-05")); reflexivity.
Defined.

(** The first event of a turn on which the extraction succeeds. *)
Lemma first_event_of_the_family_turn :
  get_user_preferences (model := family_model) (json := sample_json)
    first_turn_state = Py.Ok (family_extracted, [])
  /\ handle_event (json := sample_json) family_extracted
       (messages first_turn_state) ["You: "]
     = Py.Raise Py.IndexError.
Proof.
  split; [reflexivity|].
  apply (preference_event_breaks_the_loop (model := family_model)
           (json := sample_json) first_turn_state family_extracted []).
  reflexivity.
Defined.

(** Leaving in capital letters. *)
Lemma exit_in_capitals :
  (Py.lower "EXIT" = "exit" \/ Py.lower "EXIT" = "quit")
  /\ main (model := family_model) (json := sample_json) 25
       ["EXIT"; "Paris, two adults and a child"]
     = Left [greeting] ["You: "].
Proof.
  assert (Py.lower "EXIT" = "exit" \/ Py.lower "EXIT" = "quit") as H
    by (left; reflexivity).
  split; [exact H|].
  apply (exit_or_quit_leaves_the_session (model := family_model)
           (json := sample_json) 25 "EXIT" ["Paris, two adults and a child"] H).
Defined.

(** A travel plan as the first line. *)
Lemma travel_plan_ends_in_index_error :
  (Py.lower "Paris, two adults and a child" <> "exit"
   /\ Py.lower "Paris, two adults and a child" <> "quit")
  /\ main (model := family_model) (json := sample_json) 25
       ["Paris, two adults and a child"; "exit"]
     = Uncaught (match extract_UserPreferences (ChatModel := family_model)
                         "Paris, two adults and a child" with
                 | Py.Ok _ => Py.IndexError
                 | Py.Raise e => e
                 end)
         [greeting; HumanMessage "Paris, two adults and a child"] ["You: "].
Proof.
  assert (Py.lower "Paris, two adults and a child" <> "exit") as He by discriminate.
  assert (Py.lower "Paris, two adults and a child" <> "quit") as Hq by discriminate.
  split; [split; assumption|].
  apply (any_other_line_ends_in_an_exception (model := family_model)
           (json := sample_json) 24 "Paris, two adults and a child" ["exit"] He Hq).
Defined.

End MoreSamples.

(** ** A whole run, from the preferences to the presentation *)

Section WholeRun.

Context {model : ChatModel} {json : JsonCodec} {coercion : ArgumentCoercion}.

Lemma mock_presentation_has_no_keyword :
  Py.contains "more" (Py.lower mock_presentation)
  || Py.contains "different" (Py.lower mock_presentation) = false.
Proof. vm_compute. reflexivity. Qed.

(** X15: a run does not wait for the user.  When the record extracted from
    the last message passes the guard, the run goes on through the search
    and the presentation, and the choice is then read from the presentation
    itself, which by then is the only message of the state.  If no number
    can be extracted from it, the run is over with the label [end] (the
    presentation of the bundled listings contains neither keyword), after
    exactly one call of the search tool. *)
Theorem run_reads_the_choice_from_its_own_presentation
  (st : AgentState) (m : AnyMessage) (r : PreferenceRecord) (e : Py.exn)
  (fuel : nat) :
  Py.last_item (messages st) = Py.Ok m ->
  extract_UserPreferences (content_of m) = Py.Ok (Some (as_UserPreferences r)) ->
  (forall s, user_preferences s = Some (as_UserPreferences r) ->
             should_search s = "search") ->
  extract_Choice mock_presentation = Py.Raise e ->
  exists st' line,
    invoke_graph (3 + fuel) st
    = Finished st'
        [N_get_user_preferences; N_search_for_airbnbs; N_present_choices]
        [ {| called := "search_airbnb"; called_with := as_UserPreferences r;
             printed := line |} ]
    /\ user_preferences st' = Some (as_UserPreferences r)
    /\ search_results st' = Some the_three_listings
    /\ chosen_airbnb st' = chosen_airbnb st
    /\ messages st' = [AIMessage mock_presentation].
Proof.
  intros Hm Hx Hguard He.
  set (u1 := {| set_user_preferences := Some (Some (as_UserPreferences r));
                set_search_results := None;
                set_booking_confirmation := None;
                set_calendar_event_id := None;
                set_messages := Some [] |}).
  set (st1 := apply_update st u1).
  assert (get_user_preferences st = Py.Ok (u1, [])) as H1
    by (unfold get_user_preferences; rewrite Hm; cbn [Py.bind]; now rewrite Hx).
  assert (outgoing N_get_user_preferences st1
          = Py.Ok (To N_search_for_airbnbs, st1)) as O1.
  { cbn [outgoing]. unfold conditional_edges. cbn [Py.bind fst snd].
    now rewrite (Hguard st1 eq_refl). }
  assert (exists line,
             search_for_airbnbs st1
             = Py.Ok ({| set_user_preferences := None;
                         set_search_results := Some the_three_listings;
                         set_booking_confirmation := None;
                         set_calendar_event_id := None;
                         set_messages :=
                           Some [AIMessage "Searching for Airbnbs...";
                                 ToolMessage (Listings the_three_listings)
                                   "search_airbnb" "12345"] |},
                      [ {| called := "search_airbnb";
                           called_with := as_UserPreferences r;
                           printed := line |} ])) as [line H2].
  { pose proof (Hguard st1 eq_refl) as Hs.
    rewrite (should_search_record st1 r eq_refl) in Hs.
    unfold search_for_airbnbs. cbn [st1 apply_update user_preferences or_keep
                                      set_user_preferences u1 entry Py.bind].
    destruct r as [c f t a k].
    destruct c as [c|], f as [f|], t as [t|], a as [a|], k as [k|];
      cbn in Hs; rewrite ?andb_false_r in Hs; try discriminate.
    eexists. reflexivity. }
  set (u2 := {| set_user_preferences := None;
                set_search_results := Some the_three_listings;
                set_booking_confirmation := None;
                set_calendar_event_id := None;
                set_messages :=
                  Some [AIMessage "Searching for Airbnbs...";
                        ToolMessage (Listings the_three_listings)
                          "search_airbnb" "12345"] |}) in *.
  set (st2 := apply_update st1 u2).
  set (u3 := {| set_user_preferences := None;
                set_search_results := None;
                set_booking_confirmation := None;
                set_calendar_event_id := None;
                set_messages := Some [AIMessage mock_presentation] |}).
  set (st3 := apply_update st2 u3).
  assert (present_choices st2 = Py.Ok (u3, [])) as H3 by reflexivity.
  assert (decide_next_step st3 = Py.Ok ("end", st3)) as D3.
  { unfold decide_next_step.
    change (Py.last_item (messages st3)) with (Py.Ok (AIMessage mock_presentation)).
    cbn [Py.bind content_of]. unfold try_choice. rewrite He. cbn [Py.bind].
    now rewrite mock_presentation_has_no_keyword. }
  exists st3, line. split; [|repeat split].
  unfold invoke_graph, entry_point.
  change (3 + fuel)%nat with (S (S (S fuel))).
  cbn [run node_action]. rewrite H1. fold st1. rewrite O1.
  cbn [run node_action]. rewrite H2. fold st2. cbn [outgoing].
  cbn [run node_action]. rewrite H3. fold st3.
  unfold conditional_edges. rewrite D3. reflexivity.
Qed.

End WholeRun.

Section WholeRunSample.

#[local] Existing Instance no_coercion.

(** The family's first turn, with a model that reads no number. *)
Lemma family_turn_runs_to_the_presentation :
  (Py.last_item (messages first_turn_state)
   = Py.Ok (HumanMessage "Paris, two adults and a child")
   /\ extract_UserPreferences (ChatModel := family_model)
        (content_of (json := sample_json)
           (HumanMessage "Paris, two adults and a child"))
      = Py.Ok (Some (as_UserPreferences paris_family))
   /\ (forall s, user_preferences s = Some (as_UserPreferences paris_family) ->
                 should_search s = "search")
   /\ extract_Choice (ChatModel := family_model) mock_presentation
      = Py.Raise Py.OutputParserException)
  /\ exists st' line,
       invoke_graph (model := family_model) (json := sample_json) 25
         first_turn_state
       = Finished st'
           [N_get_user_preferences; N_search_for_airbnbs; N_present_choices]
           [ {| called := "search_airbnb";
                called_with := as_UserPreferences paris_family;
                printed := line |} ]
       /\ user_preferences st' = Some (as_UserPreferences paris_family)
       /\ search_results st' = Some the_three_listings
       /\ chosen_airbnb st' = chosen_airbnb first_turn_state
       /\ messages st' = [AIMessage mock_presentation].
Proof.
  assert (forall s, user_preferences s = Some (as_UserPreferences paris_family) ->
                    should_search s = "search") as Hguard
    by (intros s H; unfold should_search; rewrite H; reflexivity).
  split; [repeat split; [exact Hguard]|].
  apply (run_reads_the_choice_from_its_own_presentation (model := family_model)
           (json := sample_json) first_turn_state
           (HumanMessage "Paris, two adults and a child") paris_family
           Py.OutputParserException 22);
    [reflexivity | reflexivity | exact Hguard | reflexivity].
Defined.

End WholeRunSample.

(** ** The refine edge and the bundled search *)

Section RefineEdge.

Context {model : ChatModel} {json : JsonCodec} {coercion : ArgumentCoercion}.

(** X16: with the listings of the bundled search the refine edge is never
    taken.  After the presentation of those listings the choice step reads
    the presentation, in which neither keyword occurs: whatever the model
    extracts, the label is [book] or [end], never [refine_search]. *)
Theorem bundled_listings_never_lead_to_refine
  (st : AgentState) (u : StateUpdate) (made : list invocation)
  (label : string) (st' : AgentState) :
  search_results st = Some the_three_listings ->
  present_choices st = Py.Ok (u, made) ->
  decide_next_step (apply_update st u) = Py.Ok (label, st') ->
  Py.last_item (messages (apply_update st u)) = Py.Ok (AIMessage mock_presentation)
  /\ (label = "book" \/ label = "end")
  /\ label <> "refine_search".
Proof.
  intros Hr Hp Hd.
  unfold present_choices in Hp. rewrite Hr in Hp. cbn [entry Py.bind] in Hp.
  fold mock_presentation in Hp. injection Hp as <- <-.
  assert (Py.last_item
            (messages
               (apply_update st
                  {| set_user_preferences := None;
                     set_search_results := None;
                     set_booking_confirmation := None;
                     set_calendar_event_id := None;
                     set_messages := Some [AIMessage mock_presentation] |}))
          = Py.Ok (AIMessage mock_presentation)) as Hlast by reflexivity.
  split; [exact Hlast|].
  unfold decide_next_step in Hd. rewrite Hlast in Hd.
  cbn [Py.bind content_of] in Hd.
  rewrite mock_presentation_has_no_keyword in Hd.
  destruct (try_choice _ mock_presentation); injection Hd as <- _;
    split; auto; discriminate.
Qed.

End RefineEdge.

Section RefineEdgeSample.

#[local] Existing Instance no_coercion.

(** The three listings, presented and answered by a model that reads 2. *)
Lemma presenting_the_three_listings_then_choosing :
  (search_results three_results_state = Some the_three_listings
   /\ present_choices three_results_state = Py.Ok (mock_presented, [])
   /\ decide_next_step (model := choice_model 2) (json := sample_json)
        (apply_update three_results_state mock_presented)
      = Py.Ok ("book",
               with_chosen_airbnb (apply_update three_results_state mock_presented)
                 loft))
  /\ Py.last_item (messages (apply_update three_results_state mock_presented))
     = Py.Ok (AIMessage mock_presentation)
  /\ ("book" = "book" \/ "book" = "end")
  /\ "book" <> "refine_search".
Proof.
  split; [repeat split|].
  apply (bundled_listings_never_lead_to_refine (model := choice_model 2)
           (json := sample_json) three_results_state mock_presented []
           "book"
           (with_chosen_airbnb (apply_update three_results_state mock_presented)
              loft)); reflexivity.
Defined.

End RefineEdgeSample.
